(** * gdbproxy: the RSP packet parser and the packet dissector

    A shallow embedding of [gdbproxy/constants.py], [gdbproxy/packet.py] and
    [gdbproxy/dissector.py], followed by the properties established about
    them.  Python modules become Rocq modules of the same name, methods keep
    their names, and mutable objects ([PacketParser], [Dissector]) become
    records that every method takes and gives back. *)

From Stdlib Require Import ZArith NArith List String Ascii Bool Lia DecimalString.
From Stdlib.Strings Require Import Byte.
Import ListNotations.

Local Open Scope string_scope.
Local Open Scope list_scope.
Local Open Scope Z_scope.

(** * The fragment of the Python runtime used by the sources *)

Module Py.

(** ** Exceptions *)

Inductive exn : Set := ValueError | UnicodeDecodeError.

(** [UnicodeDecodeError] derives from [ValueError], so a clause
    [except ValueError] handles both. *)
Definition isinstance_ValueError (e : exn) : bool :=
  match e with
  | ValueError => true
  | UnicodeDecodeError => true
  end.

Inductive result (A : Type) : Type :=
| Return (a : A)
| Raise (e : exn).
Arguments Return {A} a.
Arguments Raise {A} e.

Definition bind {A B : Type} (c : result A) (k : A -> result B) : result B :=
  match c with
  | Return a => k a
  | Raise e => Raise e
  end.

(** [try: body / except ValueError: handler]. *)
Definition except_ValueError {A : Type} (body handler : result A) : result A :=
  match body with
  | Return a => Return a
  | Raise e => if isinstance_ValueError e then handler else Raise e
  end.

(** ** Characters and 8-bit strings

    [Packet.data_str] decodes the payload as latin-1, so every [str] the
    dissector takes apart holds code points below 256 only: such a [str] is a
    [string], and one of its characters an [ascii]. *)

Definition ord (c : ascii) : Z := Z.of_N (N_of_ascii c).

Definition between (lo hi : Z) (c : ascii) : bool :=
  (lo <=? ord c) && (ord c <=? hi).

(** [c in s] for a one-character [c]. *)
Fixpoint char_in (c : ascii) (s : string) : bool :=
  match s with
  | EmptyString => false
  | String x t => Ascii.eqb c x || char_in c t
  end.

Definition len (s : string) : Z := Z.of_nat (String.length s).

(** [s.startswith(p)]. *)
Definition startswith (s p : string) : bool := String.prefix p s.

(** [s[k:]] for a literal [k >= 0]. *)
Fixpoint slice_from (k : nat) (s : string) : string :=
  match k, s with
  | O, _ => s
  | S k', EmptyString => EmptyString
  | S k', String _ t => slice_from k' t
  end.

(** [s[:k]] for a literal [k >= 0]. *)
Fixpoint slice_to (k : nat) (s : string) : string :=
  match k, s with
  | O, _ => EmptyString
  | S k', EmptyString => EmptyString
  | S k', String c t => String c (slice_to k' t)
  end.

(** [s[a:b]] for literals [0 <= a <= b]. *)
Definition slice (a b : nat) (s : string) : string :=
  slice_to (b - a) (slice_from a s).

(** ** [int(s)] and [int(s, 16)]

    [PyLong_FromUnicodeObject] followed by [PyLong_FromString]: a code point
    above 127 is first replaced by a blank when it is a Unicode space (U+0085
    and U+00A0 below 256) and by ['?'] otherwise; then come optional blanks,
    an optional sign, with base 16 an optional [0x] or [0X] and at most one
    underscore after it, at least one digit of the base with single
    underscores allowed between digits, and optional blanks up to the end. *)

(** [Py_ISSPACE]: tab, line feed, vertical tab, form feed, carriage return,
    space. *)
Definition Py_ISSPACE (c : ascii) : bool :=
  between 9 13 c || (ord c =? 32).

Definition transform_space (c : ascii) : ascii :=
  if 127 <? ord c
  then (if (ord c =? 133) || (ord c =? 160) then " "%char else "?"%char)
  else c.

Fixpoint map_chars (f : ascii -> ascii) (s : string) : string :=
  match s with
  | EmptyString => EmptyString
  | String c t => String (f c) (map_chars f t)
  end.

Fixpoint skip_while (p : ascii -> bool) (s : string) : string :=
  match s with
  | EmptyString => EmptyString
  | String c t => if p c then skip_while p t else s
  end.

Fixpoint all_chars (p : ascii -> bool) (s : string) : bool :=
  match s with
  | EmptyString => true
  | String c t => p c && all_chars p t
  end.

(** [_PyLong_DigitValue]: 0..9 for the decimal digits, 10..35 for the
    letters of either case. *)
Definition digit_value (c : ascii) : option Z :=
  if between 48 57 c then Some (ord c - 48)
  else if between 97 122 c then Some (ord c - 87)
  else if between 65 90 c then Some (ord c - 55)
  else None.

Definition digit_in (base : Z) (c : ascii) : option Z :=
  match digit_value c with
  | Some d => if d <? base then Some d else None
  | None => None
  end.

(** The digit loop: [prev_us] tells whether the previous character was an
    underscore, [n] counts the digits read, [acc] is their value.  It gives
    back what follows the digits, or nothing on a doubled or trailing
    underscore. *)
Fixpoint scan_digits (base : Z) (s : string) (prev_us : bool) (n : nat)
  (acc : Z) : option (nat * Z * string) :=
  match s with
  | EmptyString => if prev_us then None else Some (n, acc, EmptyString)
  | String c t =>
      if Ascii.eqb c "_" then
        if prev_us then None else scan_digits base t true n acc
      else
        match digit_in base c with
        | Some d => scan_digits base t false (S n) (base * acc + d)
        | None => if prev_us then None else Some (n, acc, s)
        end
  end.

Definition skip_sign (s : string) : bool * string :=
  match s with
  | String c t =>
      if Ascii.eqb c "-" then (true, t)
      else if Ascii.eqb c "+" then (false, t)
      else (false, s)
  | EmptyString => (false, s)
  end.

Definition skip_0x (s : string) : string :=
  match s with
  | String c0 (String c1 t) =>
      if Ascii.eqb c0 "0" && (Ascii.eqb c1 "x" || Ascii.eqb c1 "X") then
        match t with
        | String u t' => if Ascii.eqb u "_" then t' else t
        | EmptyString => t
        end
      else s
  | _ => s
  end.

(** [int(s, base)] for [base] 10 or 16. *)
Definition int_ (base : Z) (s : string) : result Z :=
  let s1 := skip_while Py_ISSPACE (map_chars transform_space s) in
  let '(negative, s2) := skip_sign s1 in
  let s3 := if base =? 16 then skip_0x s2 else s2 in
  if startswith s3 "_" then Raise ValueError
  else
    match scan_digits base s3 false 0 0 with
    | Some (S _, v, rest) =>
        if all_chars Py_ISSPACE rest
        then Return (if negative then - v else v)
        else Raise ValueError
    | _ => Raise ValueError
    end.

Definition int16 (s : string) : result Z := int_ 16 s.
Definition int10 (s : string) : result Z := int_ 10 s.

(** ** [bytes] *)

Definition int_of_byte (b : byte) : Z := Z.of_N (Byte.to_N b).

(** [bytes.decode("latin-1")]: byte [k] is code point [k]. *)
Definition decode_latin1 (bs : list byte) : string := string_of_list_byte bs.

(** [bytes.decode("ascii")]. *)
Definition decode_ascii (bs : list byte) : result string :=
  if forallb (fun b => int_of_byte b <? 128) bs
  then Return (string_of_list_byte bs)
  else Raise UnicodeDecodeError.

(** [sum(data)]. *)
Definition sum (bs : list byte) : Z :=
  fold_left (fun acc b => acc + int_of_byte b) bs 0.

(** [bytes.fromhex(s)]: pairs of hexadecimal digits, with blanks
    ([Py_ISSPACE]) allowed before each pair and at the end; anything else,
    a character above 127 included, raises [ValueError]. *)
Definition hex_value (c : ascii) : option Z := digit_in 16 c.

Definition byte_of_Z (z : Z) : byte :=
  match Byte.of_N (Z.to_N z) with
  | Some b => b
  | None => "000"%byte
  end.

Fixpoint fromhex (s : string) : result (list byte) :=
  match s with
  | EmptyString => Return []
  | String c t =>
      if Py_ISSPACE c then fromhex t
      else
        match hex_value c, t with
        | Some top, String c' t' =>
            match hex_value c' with
            | Some bot =>
                match fromhex t' with
                | Return bs => Return (byte_of_Z (16 * top + bot) :: bs)
                | Raise e => Raise e
                end
            | None => Raise ValueError
            end
        | _, _ => Raise ValueError
        end
  end.

(** ** Text

    A [str] obtained by decoding UTF-8 may hold any code point: the strings
    the dissector gives back are sequences of code points. *)

Definition text : Set := list N.

(** An 8-bit string read as text; [lit "..."] stands for a literal. *)
Definition lit (s : string) : text := map N_of_ascii (list_ascii_of_string s).

(** [str(n)] for an [int], as the f-strings apply it (the interpreter's
    configurable limit on the number of digits is left out). *)
Definition str_int (n : Z) : text := lit (NilZero.string_of_int (Z.to_int n)).

(** [sep.join(parts)]. *)
Fixpoint join (sep : text) (parts : list text) : text :=
  match parts with
  | [] => []
  | [x] => x
  | x :: rest => x ++ sep ++ join sep rest
  end.

(** [bytes.decode("ascii")] giving text. *)
Definition decode_ascii_text (bs : list byte) : result text :=
  if forallb (fun b => int_of_byte b <? 128) bs
  then Return (map Byte.to_N bs)
  else Raise UnicodeDecodeError.

(** [bytes.decode("utf-8", errors="replace")]: every maximal ill-formed
    part becomes one U+FFFD. *)
Definition is_continuation (b : byte) : bool :=
  (0x80 <=? int_of_byte b) && (int_of_byte b <=? 0xBF).

Definition low6 (b : byte) : Z := Z.land (int_of_byte b) 0x3F.

Definition REPLACEMENT : N := 0xFFFD.

Definition valid_second3 (ch : Z) (b : byte) : bool :=
  is_continuation b
  && negb (if int_of_byte b <? 0xA0 then ch =? 0xE0 else ch =? 0xED).

Definition valid_second4 (ch : Z) (b : byte) : bool :=
  is_continuation b
  && negb (if int_of_byte b <? 0x90 then ch =? 0xF0 else ch =? 0xF4).

Fixpoint decode_utf8_replace (bs : list byte) : text :=
  match bs with
  | [] => []
  | b0 :: t =>
      let ch := int_of_byte b0 in
      if ch <? 0x80 then Z.to_N ch :: decode_utf8_replace t
      else if ch <? 0xC2 then REPLACEMENT :: decode_utf8_replace t
      else if ch <? 0xE0 then
        match t with
        | [] => [REPLACEMENT]
        | b1 :: t1 =>
            if is_continuation b1
            then Z.to_N (Z.lor (Z.shiftl (Z.land ch 0x1F) 6) (low6 b1))
                 :: decode_utf8_replace t1
            else REPLACEMENT :: decode_utf8_replace t
        end
      else if ch <? 0xF0 then
        match t with
        | [] => [REPLACEMENT]
        | b1 :: t1 =>
            if valid_second3 ch b1 then
              match t1 with
              | [] => [REPLACEMENT]
              | b2 :: t2 =>
                  if is_continuation b2
                  then Z.to_N (Z.lor (Z.shiftl (Z.land ch 0x0F) 12)
                                 (Z.lor (Z.shiftl (low6 b1) 6) (low6 b2)))
                       :: decode_utf8_replace t2
                  else REPLACEMENT :: decode_utf8_replace t1
              end
            else REPLACEMENT :: decode_utf8_replace t
        end
      else if ch <? 0xF5 then
        match t with
        | [] => [REPLACEMENT]
        | b1 :: t1 =>
            if valid_second4 ch b1 then
              match t1 with
              | [] => [REPLACEMENT]
              | b2 :: t2 =>
                  if is_continuation b2 then
                    match t2 with
                    | [] => [REPLACEMENT]
                    | b3 :: t3 =>
                        if is_continuation b3
                        then Z.to_N
                               (Z.lor (Z.shiftl (Z.land ch 0x07) 18)
                                  (Z.lor (Z.shiftl (low6 b1) 12)
                                     (Z.lor (Z.shiftl (low6 b2) 6) (low6 b3))))
                             :: decode_utf8_replace t3
                        else REPLACEMENT :: decode_utf8_replace t2
                    end
                  else REPLACEMENT :: decode_utf8_replace t1
              end
            else REPLACEMENT :: decode_utf8_replace t
        end
      else REPLACEMENT :: decode_utf8_replace t
  end.

(** ** More [str] methods *)

(** [s.split(sep)] for a one-character [sep]. *)
Fixpoint split (sep : ascii) (s : string) : list string :=
  match s with
  | EmptyString => [EmptyString]
  | String c t =>
      if Ascii.eqb c sep then EmptyString :: split sep t
      else
        match split sep t with
        | h :: r => String c h :: r
        | [] => [String c EmptyString]
        end
  end.

(** [s.split(sep, 1)]. *)
Fixpoint split1 (sep : ascii) (s : string) : list string :=
  match s with
  | EmptyString => [EmptyString]
  | String c t =>
      if Ascii.eqb c sep then [EmptyString; t]
      else
        match split1 sep t with
        | h :: r => String c h :: r
        | [] => [String c EmptyString]
        end
  end.

(** [a, b = parts]: anything but two items raises [ValueError]. *)
Definition unpack2 (parts : list string) : result (string * string) :=
  match parts with
  | [a; b] => Return (a, b)
  | _ => Raise ValueError
  end.

(** [parts[i]] where the source has checked the length. *)
Definition item (parts : list string) (i : nat) : string :=
  nth i parts EmptyString.

(** [str.isspace] below 256; also the class [\s] of [re]. *)
Definition isspace (c : ascii) : bool :=
  between 9 13 c || between 28 32 c || (ord c =? 133) || (ord c =? 160).

(** The class [\w] of [re] below 256: [str.isalnum] or an underscore. *)
Definition isword (c : ascii) : bool :=
  between 48 57 c || between 65 90 c || (ord c =? 95) || between 97 122 c
  || (ord c =? 170) || (ord c =? 178) || (ord c =? 179) || (ord c =? 181)
  || (ord c =? 185) || (ord c =? 186) || between 188 190 c
  || between 192 214 c || between 216 246 c || between 248 255 c.

(** [s.lstrip()]. *)
Definition lstrip (s : string) : string := skip_while isspace s.

(** [s.rstrip(c)] for a one-character [c]. *)
Fixpoint rstrip_char (c : ascii) (s : string) : string :=
  match s with
  | EmptyString => EmptyString
  | String x t =>
      match rstrip_char c t with
      | EmptyString => if Ascii.eqb x c then EmptyString else String x EmptyString
      | t' => String x t'
      end
  end.

(** [s.lower()] below 256. *)
Definition lower_char (c : ascii) : ascii :=
  if between 65 90 c || (between 192 222 c && negb (ord c =? 215))
  then ascii_of_N (N_of_ascii c + 32)
  else c.

Definition lower (s : string) : string := map_chars lower_char s.

(** Truth value of a [str]: a non-empty one is true. *)
Definition truthy (s : string) : bool := negb (String.eqb s EmptyString).

Definition truthy_text (t : text) : bool :=
  match t with
  | [] => false
  | _ :: _ => true
  end.

(** [len(l)] of a list. *)
Definition len_list {A : Type} (l : list A) : Z := Z.of_nat (List.length l).

(** [bytes.fromhex(s).decode("utf-8", errors="replace")]. *)
Definition fromhex_utf8 (s : string) : result text :=
  match fromhex s with
  | Return bs => Return (decode_utf8_replace bs)
  | Raise e => Raise e
  end.

(** ** Dictionaries, as association lists in insertion order *)

Fixpoint get {K V : Type} (eqb : K -> K -> bool) (d : list (K * V)) (k : K)
  : option V :=
  match d with
  | [] => None
  | (k', v) :: rest => if eqb k k' then Some v else get eqb rest k
  end.

(** [d.get(k, default)]. *)
Definition get_default {K V : Type} (eqb : K -> K -> bool) (d : list (K * V))
  (k : K) (default : V) : V :=
  match get eqb d k with
  | Some v => v
  | None => default
  end.

End Py.

Notation "x <- c ;; k" := (Py.bind c (fun x => k))
  (at level 61, c at next level, right associativity).

(** * The fragment of [re] used by the dissector

    Patterns are written as syntax trees and matched as [re] matches them:
    from left to right, every repetition taking as much as it can and giving
    back one character at a time when what follows fails.  Only sets of
    characters are repeated; [Opt r] is [r?] (or [(?:r)?]); [Group i r] is
    the [i]-th capturing group. *)

Module re.

Inductive pattern : Type :=
| Chars (s : string)
| In_ (p : ascii -> bool)
| Many (p : ascii -> bool) (min : nat) (max : option nat)
| Opt (r : pattern)
| Cat (a b : pattern)
| Group (i : nat) (r : pattern)
| Bol
| Eol
| WordB.

Definition Plus (p : ascii -> bool) : pattern := Many p 1 None.
Definition Star (p : ascii -> bool) : pattern := Many p 0 None.

(** A match object, as far as [groups()] and [group(i)] go. *)
Definition Match : Set := list (nat * string).

Definition group (m : Match) (i : nat) : option string := Py.get Nat.eqb m i.

(** [group(i)] of a group that took part in the match. *)
Definition group_str (m : Match) (i : nat) : string :=
  match group m i with
  | Some s => s
  | None => EmptyString
  end.

Definition is_word (c : option ascii) : bool :=
  match c with
  | Some x => Py.isword x
  | None => false
  end.

Definition head (s : string) : option ascii :=
  match s with
  | String c _ => Some c
  | EmptyString => None
  end.

(** What was consumed between [s] and its suffix [s']. *)
Definition consumed (s s' : string) : string :=
  Py.slice_to (String.length s - String.length s') s.

Section Engine.

Context {R : Type}.

Fixpoint chars (l s : string) (prev : option ascii)
  : option (option ascii * string) :=
  match l with
  | EmptyString => Some (prev, s)
  | String c l' =>
      match s with
      | String x t => if Ascii.eqb c x then chars l' t (Some x) else None
      | EmptyString => None
      end
  end.

Fixpoint many (p : ascii -> bool) (min : nat) (max : option nat)
  (prev : option ascii) (s : string)
  (k : option ascii -> string -> option R) : option R :=
  let stop := match min with O => k prev s | S _ => None end in
  match s with
  | String c t =>
      if p c && match max with Some O => false | _ => true end then
        match many p (Nat.pred min) (option_map Nat.pred max) (Some c) t k with
        | Some r => Some r
        | None => stop
        end
      else stop
  | EmptyString => stop
  end.

(** [prev] is the character before the current position, if any. *)
Fixpoint go (r : pattern) (prev : option ascii) (s : string) (caps : Match)
  (k : option ascii -> string -> Match -> option R) : option R :=
  match r with
  | Chars l =>
      match chars l s prev with
      | Some (prev', s') => k prev' s' caps
      | None => None
      end
  | In_ p =>
      match s with
      | String c t => if p c then k (Some c) t caps else None
      | EmptyString => None
      end
  | Many p min max => many p min max prev s (fun prev' s' => k prev' s' caps)
  | Opt r' =>
      match go r' prev s caps k with
      | Some x => Some x
      | None => k prev s caps
      end
  | Cat a b => go a prev s caps (fun prev' s' caps' => go b prev' s' caps' k)
  | Group i r' =>
      go r' prev s caps
        (fun prev' s' caps' => k prev' s' ((i, consumed s s') :: caps'))
  | Bol =>
      match prev with
      | None => k prev s caps
      | Some _ => None
      end
  | Eol =>
      if String.eqb s EmptyString || String.eqb s (String "010" EmptyString)
      then k prev s caps
      else None
  | WordB =>
      if xorb (is_word prev) (is_word (head s)) then k prev s caps else None
  end.

End Engine.

(** [re.match(r, s)]. *)
Definition match_ (r : pattern) (s : string) : option Match :=
  go r None s [] (fun _ _ caps => Some caps).

(** [re.search(r, s)]: the first position where [r] matches. *)
Fixpoint search_from (r : pattern) (prev : option ascii) (s : string)
  : option Match :=
  match go r prev s [] (fun _ _ caps => Some caps) with
  | Some m => Some m
  | None =>
      match s with
      | String c t => search_from r (Some c) t
      | EmptyString => None
      end
  end.

Definition search (r : pattern) (s : string) : option Match :=
  search_from r None s.

(** [re.split(r, s)] when [r] is one set of characters. *)
Fixpoint split (p : ascii -> bool) (s : string) : list string :=
  match s with
  | EmptyString => [EmptyString]
  | String c t =>
      if p c then EmptyString :: split p t
      else
        match split p t with
        | h :: r => String c h :: r
        | [] => [String c EmptyString]
        end
  end.

(** The sets of the patterns. *)
Definition hexdigit (c : ascii) : bool :=
  Py.between 48 57 c || Py.between 97 102 c || Py.between 65 70 c.

Definition one_of (set : string) (c : ascii) : bool := Py.char_in c set.

Definition none_of (set : string) (c : ascii) : bool := negb (Py.char_in c set).

End re.

Notation "a >> b" := (re.Cat a b) (at level 60, right associativity).

(** * constants.py *)

Module constants.

Definition PACKET_START : Z := Py.ord "$".
Definition PACKET_END : Z := Py.ord "#".
Definition NOTIFICATION_START : Z := Py.ord "%".
Definition ACK : Z := Py.ord "+".
Definition NACK : Z := Py.ord "-".
Definition INTERRUPT : Z := 0x03.
Definition ESCAPE : Z := Py.ord "}".
Definition ESCAPE_XOR : Z := 0x20.

Definition SIGNALS : list (Z * string) :=
  [ (1, "SIGHUP"); (2, "SIGINT"); (3, "SIGQUIT"); (4, "SIGILL");
    (5, "SIGTRAP"); (6, "SIGABRT"); (7, "SIGBUS"); (8, "SIGFPE");
    (9, "SIGKILL"); (10, "SIGUSR1"); (11, "SIGSEGV"); (12, "SIGUSR2");
    (13, "SIGPIPE"); (14, "SIGALRM"); (15, "SIGTERM"); (16, "SIGSTKFLT");
    (17, "SIGCHLD"); (18, "SIGCONT"); (19, "SIGSTOP"); (20, "SIGTSTP");
    (21, "SIGTTIN"); (22, "SIGTTOU"); (23, "SIGURG"); (24, "SIGXCPU");
    (25, "SIGXFSZ"); (26, "SIGVTALRM"); (27, "SIGPROF"); (28, "SIGWINCH");
    (29, "SIGIO"); (30, "SIGPWR"); (31, "SIGSYS") ].

Definition BREAKPOINT_TYPES : list (Z * string) :=
  [ (0, "software breakpoint"); (1, "hardware breakpoint");
    (2, "write watchpoint"); (3, "read watchpoint");
    (4, "access watchpoint") ].

Definition VCONT_ACTIONS : list (string * string) :=
  [ ("c", "continue"); ("C", "continue with signal"); ("s", "step");
    ("S", "step with signal"); ("t", "stop"); ("r", "range step") ].

End constants.

(** * packet.py *)

Module packet.

Inductive PacketType : Set := ACK | NACK | INTERRUPT | PACKET | NOTIFICATION.

Record Packet : Set := mkPacket {
  type : PacketType;
  data : list byte;
  checksum : Z;
  raw : list byte;
  valid_checksum : bool
}.

(** [Packet(t, raw=r)]: the other fields take their defaults. *)
Definition Packet_raw (t : PacketType) (r : list byte) : Packet :=
  {| type := t; data := []; checksum := 0; raw := r; valid_checksum := true |}.

(** The latin-1 codec accepts every byte, so the [except] branch of the
    property is never taken. *)
Definition data_str (p : Packet) : string := Py.decode_latin1 (data p).

Definition compute_checksum (data : list byte) : Z :=
  Z.land (Py.sum data) 0xFF.

(** The loop reads one byte, or two when the byte is the escape prefix
    and another one follows; the model recurses on what is left to read. *)
Fixpoint unescape (data : list byte) : list byte :=
  match data with
  | [] => []
  | b :: rest =>
      if Py.int_of_byte b =? constants.ESCAPE then
        match rest with
        | b1 :: rest1 =>
            Py.byte_of_Z (Z.lxor (Py.int_of_byte b1) constants.ESCAPE_XOR)
            :: unescape rest1
        | [] => [b]
        end
      else b :: unescape rest
  end.

Inductive ParserState : Set := IDLE | IN_PACKET | CHECKSUM_1 | CHECKSUM_2.

Record PacketParser : Set := mkParser {
  _state : ParserState;
  _buffer : list byte;
  _packet_start : Z;
  _checksum_chars : list byte;
  _is_notification : bool;
  _raw_buffer : list byte
}.

Definition __init__ : PacketParser :=
  {| _state := IDLE; _buffer := []; _packet_start := 0;
     _checksum_chars := []; _is_notification := false; _raw_buffer := [] |}.

Definition _handle_idle (self : PacketParser) (byte : byte)
  : PacketParser * option Packet :=
  let b := Py.int_of_byte byte in
  if b =? constants.ACK then (self, Some (Packet_raw ACK [byte]))
  else if b =? constants.NACK then (self, Some (Packet_raw NACK [byte]))
  else if b =? constants.INTERRUPT then
    (self, Some (Packet_raw INTERRUPT [byte]))
  else if b =? constants.PACKET_START then
    ({| _state := IN_PACKET; _buffer := [];
        _packet_start := _packet_start self;
        _checksum_chars := _checksum_chars self;
        _is_notification := false; _raw_buffer := [byte] |}, None)
  else if b =? constants.NOTIFICATION_START then
    ({| _state := IN_PACKET; _buffer := [];
        _packet_start := _packet_start self;
        _checksum_chars := _checksum_chars self;
        _is_notification := true; _raw_buffer := [byte] |}, None)
  else (self, None).

Definition _handle_in_packet (self : PacketParser) (byte : byte)
  : PacketParser * option Packet :=
  let raw_buffer := _raw_buffer self ++ [byte] in
  if Py.int_of_byte byte =? constants.PACKET_END then
    ({| _state := CHECKSUM_1; _buffer := _buffer self;
        _packet_start := _packet_start self;
        _checksum_chars := [];
        _is_notification := _is_notification self;
        _raw_buffer := raw_buffer |}, None)
  else
    ({| _state := _state self; _buffer := _buffer self ++ [byte];
        _packet_start := _packet_start self;
        _checksum_chars := _checksum_chars self;
        _is_notification := _is_notification self;
        _raw_buffer := raw_buffer |}, None).

Definition _handle_checksum_1 (self : PacketParser) (byte : byte)
  : PacketParser * option Packet :=
  ({| _state := CHECKSUM_2; _buffer := _buffer self;
      _packet_start := _packet_start self;
      _checksum_chars := _checksum_chars self ++ [byte];
      _is_notification := _is_notification self;
      _raw_buffer := _raw_buffer self ++ [byte] |}, None).

(** [int(self._checksum_chars.decode("ascii"), 16)]. *)
Definition read_checksum (checksum_chars : list byte) : Py.result Z :=
  s <- Py.decode_ascii checksum_chars ;; Py.int16 s.

(** The [try] around it: 0 when either step raises [ValueError]; the two
    steps raise nothing else. *)
Definition parse_checksum (checksum_chars : list byte) : Z :=
  match Py.except_ValueError (read_checksum checksum_chars) (Py.Return 0) with
  | Py.Return v => v
  | Py.Raise _ => 0
  end.

Definition _handle_checksum_2 (self : PacketParser) (byte : byte)
  : PacketParser * option Packet :=
  let raw_buffer := _raw_buffer self ++ [byte] in
  let checksum_chars := _checksum_chars self ++ [byte] in
  let checksum := parse_checksum checksum_chars in
  let data := _buffer self in
  let computed := compute_checksum data in
  let valid := computed =? checksum in
  let packet_type := if _is_notification self then NOTIFICATION else PACKET in
  ({| _state := IDLE; _buffer := _buffer self;
      _packet_start := _packet_start self;
      _checksum_chars := checksum_chars;
      _is_notification := _is_notification self;
      _raw_buffer := raw_buffer |},
   Some {| type := packet_type; data := data; checksum := checksum;
           raw := raw_buffer; valid_checksum := valid |}).

Definition _process_byte (self : PacketParser) (byte : byte)
  : PacketParser * option Packet :=
  match _state self with
  | IDLE => _handle_idle self byte
  | IN_PACKET => _handle_in_packet self byte
  | CHECKSUM_1 => _handle_checksum_1 self byte
  | CHECKSUM_2 => _handle_checksum_2 self byte
  end.

(** [feed] is a generator; the model gives the parser left behind and the
    packets yielded once the generator has been run to its end. *)
Fixpoint feed (self : PacketParser) (data : list byte)
  : PacketParser * list Packet :=
  match data with
  | [] => (self, [])
  | byte :: rest =>
      let '(self1, packet) := _process_byte self byte in
      let '(self2, packets) := feed self1 rest in
      (self2, match packet with
              | Some p => p :: packets
              | None => packets
              end)
  end.

Definition reset (self : PacketParser) : PacketParser :=
  {| _state := IDLE; _buffer := []; _packet_start := _packet_start self;
     _checksum_chars := [];
     _is_notification := _is_notification self; _raw_buffer := [] |}.

(** Feeding a sequence of chunks to one parser, in order. *)
Fixpoint feed_chunks (self : PacketParser) (chunks : list (list byte))
  : PacketParser * list Packet :=
  match chunks with
  | [] => (self, [])
  | chunk :: rest =>
      let '(self1, packets1) := feed self chunk in
      let '(self2, packets2) := feed_chunks self1 rest in
      (self2, packets1 ++ packets2)
  end.

End packet.

(** * dissector.py

    The handlers are methods of [Dissector]; only [dissect] writes
    [self._last_command] and only [_dissect_hex_data] and
    [_dissect_rle_hex_data] read it, so these take a [Dissector] and the
    other handlers take the payload alone.  A handler gives back the text it
    returns, or the exception it lets through. *)

Module dissector.

Import Py.

Record Dissector : Set := mkDissector {
  _last_command : option string
}.

Definition hex : ascii -> bool := re.hexdigit.

(** [SIGNALS.get(sig, f"signal {sig}")]. *)
Definition signal_name (sig : Z) : text :=
  get_default Z.eqb
    (map (fun kv => (fst kv, lit (snd kv))) constants.SIGNALS)
    sig (lit "signal " ++ str_int sig).

(** ** Handlers of the one-letter commands *)

(** r"m([0-9a-fA-F]+),([0-9a-fA-F]+)" *)
Definition re_read_memory : re.pattern :=
  re.Chars "m" >> re.Group 1 (re.Plus hex) >> re.Chars ","
  >> re.Group 2 (re.Plus hex).

Definition _dissect_read_memory (data : string) : result text :=
  match re.match_ re_read_memory data with
  | Some m =>
      let addr := re.group_str m 1 in
      let length := re.group_str m 2 in
      n <- int16 length ;;
      Return (lit "Read " ++ str_int n ++ lit " bytes from 0x" ++ lit addr)
  | None => Return (lit "Read memory: " ++ lit data)
  end.

(** r"M([0-9a-fA-F]+),([0-9a-fA-F]+):" *)
Definition re_write_memory : re.pattern :=
  re.Chars "M" >> re.Group 1 (re.Plus hex) >> re.Chars ","
  >> re.Group 2 (re.Plus hex) >> re.Chars ":".

Definition _dissect_write_memory (data : string) : result text :=
  match re.match_ re_write_memory data with
  | Some m =>
      let addr := re.group_str m 1 in
      let length := re.group_str m 2 in
      n <- int16 length ;;
      Return (lit "Write " ++ str_int n ++ lit " bytes to 0x" ++ lit addr)
  | None => Return (lit "Write memory: " ++ lit data)
  end.

(** r"x([0-9a-fA-F]+),([0-9a-fA-F]+)" *)
Definition re_read_memory_binary : re.pattern :=
  re.Chars "x" >> re.Group 1 (re.Plus hex) >> re.Chars ","
  >> re.Group 2 (re.Plus hex).

Definition _dissect_read_memory_binary (data : string) : result text :=
  match re.match_ re_read_memory_binary data with
  | Some m =>
      let addr := re.group_str m 1 in
      let length := re.group_str m 2 in
      n <- int16 length ;;
      Return (lit "Read " ++ str_int n ++ lit " bytes (binary) from 0x"
              ++ lit addr)
  | None => Return (lit "Read memory (binary): " ++ lit data)
  end.

(** r"X([0-9a-fA-F]+),([0-9a-fA-F]+):" *)
Definition re_write_memory_binary : re.pattern :=
  re.Chars "X" >> re.Group 1 (re.Plus hex) >> re.Chars ","
  >> re.Group 2 (re.Plus hex) >> re.Chars ":".

Definition _dissect_write_memory_binary (data : string) : result text :=
  match re.match_ re_write_memory_binary data with
  | Some m =>
      let addr := re.group_str m 1 in
      let length := re.group_str m 2 in
      n <- int16 length ;;
      Return (lit "Write " ++ str_int n ++ lit " bytes (binary) to 0x"
              ++ lit addr)
  | None => Return (lit "Write memory (binary): " ++ lit data)
  end.

Definition _dissect_read_registers (data : string) : result text :=
  Return (lit "Read all registers").

Definition _dissect_write_registers (data : string) : result text :=
  Return (lit "Write all registers (" ++ str_int (len data - 1)
          ++ lit " hex chars)").

Definition _dissect_read_register (data : string) : result text :=
  let reg := slice_from 1 data in
  except_ValueError
    (reg_num <- int16 reg ;;
     Return (lit "Read register " ++ str_int reg_num))
    (Return (lit "Read register: " ++ lit reg)).

(** r"P([0-9a-fA-F]+)=([0-9a-fA-F]+)" *)
Definition re_write_register : re.pattern :=
  re.Chars "P" >> re.Group 1 (re.Plus hex) >> re.Chars "="
  >> re.Group 2 (re.Plus hex).

Definition _dissect_write_register (data : string) : result text :=
  match re.match_ re_write_register data with
  | Some m =>
      let reg := re.group_str m 1 in
      let val := re.group_str m 2 in
      n <- int16 reg ;;
      Return (lit "Write register " ++ str_int n ++ lit " = 0x" ++ lit val)
  | None => Return (lit "Write register: " ++ lit data)
  end.

Definition _dissect_continue (data : string) : result text :=
  if 1 <? len data
  then Return (lit "Continue at 0x" ++ lit (slice_from 1 data))
  else Return (lit "Continue").

(** r"C([0-9a-fA-F]{2})(?:;([0-9a-fA-F]+))?" *)
Definition re_continue_signal : re.pattern :=
  re.Chars "C" >> re.Group 1 (re.Many hex 2 (Some 2%nat))
  >> re.Opt (re.Chars ";" >> re.Group 2 (re.Plus hex)).

Definition _dissect_continue_signal (data : string) : result text :=
  match re.match_ re_continue_signal data with
  | Some m =>
      sig <- int16 (re.group_str m 1) ;;
      let sig_name := signal_name sig in
      match re.group m 2 with
      | Some addr =>
          if truthy addr
          then Return (lit "Continue with " ++ sig_name ++ lit " at 0x"
                       ++ lit addr)
          else Return (lit "Continue with " ++ sig_name)
      | None => Return (lit "Continue with " ++ sig_name)
      end
  | None => Return (lit "Continue with signal: " ++ lit data)
  end.

Definition _dissect_step (data : string) : result text :=
  if 1 <? len data
  then Return (lit "Single step at 0x" ++ lit (slice_from 1 data))
  else Return (lit "Single step").

(** r"S([0-9a-fA-F]{2})(?:;([0-9a-fA-F]+))?" *)
Definition re_step_signal : re.pattern :=
  re.Chars "S" >> re.Group 1 (re.Many hex 2 (Some 2%nat))
  >> re.Opt (re.Chars ";" >> re.Group 2 (re.Plus hex)).

Definition _dissect_step_signal (data : string) : result text :=
  match re.match_ re_step_signal data with
  | Some m =>
      sig <- int16 (re.group_str m 1) ;;
      let sig_name := signal_name sig in
      match re.group m 2 with
      | Some addr =>
          if truthy addr
          then Return (lit "Step with " ++ sig_name ++ lit " at 0x"
                       ++ lit addr)
          else Return (lit "Step with " ++ sig_name)
      | None => Return (lit "Step with " ++ sig_name)
      end
  | None => Return (lit "Step with signal: " ++ lit data)
  end.

(** [BREAKPOINT_TYPES.get(int(bp_type), f"type {bp_type}")]. *)
Definition breakpoint_name (bp_type : string) : result text :=
  n <- int10 bp_type ;;
  Return (get_default Z.eqb
            (map (fun kv => (fst kv, lit (snd kv))) constants.BREAKPOINT_TYPES)
            n (lit "type " ++ lit bp_type)).

(** r"Z([0-4]),([0-9a-fA-F]+),([0-9a-fA-F]+)" *)
Definition re_insert_breakpoint : re.pattern :=
  re.Chars "Z" >> re.Group 1 (re.In_ (between 48 52)) >> re.Chars ","
  >> re.Group 2 (re.Plus hex) >> re.Chars "," >> re.Group 3 (re.Plus hex).

Definition _dissect_insert_breakpoint (data : string) : result text :=
  match re.match_ re_insert_breakpoint data with
  | Some m =>
      let bp_type := re.group_str m 1 in
      let addr := re.group_str m 2 in
      bp_name <- breakpoint_name bp_type ;;
      Return (lit "Insert " ++ bp_name ++ lit " at 0x" ++ lit addr)
  | None => Return (lit "Insert breakpoint: " ++ lit data)
  end.

(** r"z([0-4]),([0-9a-fA-F]+),([0-9a-fA-F]+)" *)
Definition re_remove_breakpoint : re.pattern :=
  re.Chars "z" >> re.Group 1 (re.In_ (between 48 52)) >> re.Chars ","
  >> re.Group 2 (re.Plus hex) >> re.Chars "," >> re.Group 3 (re.Plus hex).

Definition _dissect_remove_breakpoint (data : string) : result text :=
  match re.match_ re_remove_breakpoint data with
  | Some m =>
      let bp_type := re.group_str m 1 in
      let addr := re.group_str m 2 in
      bp_name <- breakpoint_name bp_type ;;
      Return (lit "Remove " ++ bp_name ++ lit " at 0x" ++ lit addr)
  | None => Return (lit "Remove breakpoint: " ++ lit data)
  end.

Definition _dissect_halt_reason (data : string) : result text :=
  Return (lit "Query halt reason").

Definition _dissect_kill (data : string) : result text :=
  Return (lit "Kill target").

Definition _dissect_detach (data : string) : result text :=
  if 1 <? len data then
    let pid := slice_from 1 data in
    let pid := if startswith pid ";" then slice_from 1 pid else pid in
    Return (lit "Detach from process " ++ lit pid)
  else Return (lit "Detach").

Definition _dissect_extended_mode (data : string) : result text :=
  Return (lit "Enable extended mode").

Definition _dissect_set_thread (data : string) : result text :=
  if 1 <? len data then
    let op := slice 1 2 data in
    let thread := slice_from 2 data in
    let op_name :=
      if String.eqb op "g" then "general ops"
      else if String.eqb op "c" then "continue ops"
      else op in
    if String.eqb thread "-1" || String.eqb thread "0"
    then Return (lit "Set thread for " ++ lit op_name ++ lit ": all threads")
    else Return (lit "Set thread for " ++ lit op_name ++ lit ": "
                 ++ lit thread)
  else Return (lit "Set thread: " ++ lit data).

Definition _dissect_thread_alive (data : string) : result text :=
  Return (lit "Check if thread " ++ lit (slice_from 1 data)
          ++ lit " is alive").

Definition _dissect_restart (data : string) : result text :=
  Return (lit "Restart program").

Definition _command_handlers : list (ascii * (string -> result text)) :=
  [ ("m"%char, _dissect_read_memory);
    ("M"%char, _dissect_write_memory);
    ("x"%char, _dissect_read_memory_binary);
    ("X"%char, _dissect_write_memory_binary);
    ("g"%char, _dissect_read_registers);
    ("G"%char, _dissect_write_registers);
    ("p"%char, _dissect_read_register);
    ("P"%char, _dissect_write_register);
    ("c"%char, _dissect_continue);
    ("C"%char, _dissect_continue_signal);
    ("s"%char, _dissect_step);
    ("S"%char, _dissect_step_signal);
    ("Z"%char, _dissect_insert_breakpoint);
    ("z"%char, _dissect_remove_breakpoint);
    ("?"%char, _dissect_halt_reason);
    ("k"%char, _dissect_kill);
    ("D"%char, _dissect_detach);
    ("!"%char, _dissect_extended_mode);
    ("H"%char, _dissect_set_thread);
    ("T"%char, _dissect_thread_alive);
    ("R"%char, _dissect_restart) ].

(** ** Handlers of the [v] packets *)

(** One action of [vCont;action[;action]...]. *)
Definition vcont_action (action : string) : result text :=
  act_thread <-
    (if char_in ":" action
     then p <- unpack2 (split1 ":" action) ;; Return (fst p, Some (snd p))
     else Return (action, None)) ;;
  let act : string := fst act_thread in
  let thread : option string := snd act_thread in
  let act_base := if truthy act then slice_to 1 act else "" in
  let act_name := get_default String.eqb constants.VCONT_ACTIONS act_base act in
  match thread with
  | Some th =>
      if truthy th
      then Return (lit act_name ++ lit " thread " ++ lit th)
      else Return (lit act_name)
  | None => Return (lit act_name)
  end.

(** [for x in xs: parts.append(body(x))], stopping at the first exception. *)
Fixpoint for_each {A B : Type} (body : A -> result B) (xs : list A)
  : result (list B) :=
  match xs with
  | [] => Return []
  | x :: rest =>
      y <- body x ;;
      ys <- for_each body rest ;;
      Return (y :: ys)
  end.

Definition _dissect_vcont (data : string) : result text :=
  if String.eqb data "vCont?" then Return (lit "Query vCont support")
  else
    let actions := slice_from 6 data in
    if negb (truthy actions) then Return (lit "vCont (no actions)")
    else
      parts <- for_each vcont_action (split ";" actions) ;;
      Return (lit "vCont: " ++ join (lit ", ") parts).

Definition _dissect_vcont_query (data : string) : result text :=
  Return (lit "Query vCont support").

Definition _dissect_vkill (data : string) : result text :=
  let pid := if 6 <? len data then slice_from 6 data else "" in
  if truthy pid
  then Return (lit "Kill process " ++ lit pid)
  else Return (lit "Kill process").

Definition _dissect_vrun (data : string) : result text :=
  let args := slice_from 5 data in
  Return (lit "Run program: " ++ lit args).

Definition _dissect_vattach (data : string) : result text :=
  let pid := slice_from 8 data in
  Return (lit "Attach to process " ++ lit pid).

Definition _dissect_vstopped (data : string) : result text :=
  Return (lit "Acknowledge stop notification").

Definition _dissect_vmustreplyempty (data : string) : result text :=
  Return (lit "Must reply empty (probe)").

(** [try: name = bytes.fromhex(h).decode("utf-8", errors="replace")]
    [except ValueError: name = h]. *)
Definition hex_name (h : string) : result text :=
  except_ValueError (fromhex_utf8 h) (Return (lit h)).

Definition _dissect_vfile (data : string) : result text :=
  let parts := split ":" data in
  if len_list parts <? 2 then Return (lit "File operation: " ++ lit data)
  else
    let op := item parts 1 in
    let args :=
      if 2 <? len_list parts then String.concat ":" (skipn 2 parts) else "" in
    if String.eqb op "setfs" then
      let pid := if truthy args then args else "0" in
      Return (lit "Set file system to pid " ++ lit pid)
    else if String.eqb op "open" then
      let open_parts := split "," args in
      if 1 <=? len_list open_parts then
        let filename_hex := item open_parts 0 in
        filename <- hex_name filename_hex ;;
        let flags := if 1 <? len_list open_parts then item open_parts 1 else "?" in
        let mode := if 2 <? len_list open_parts then item open_parts 2 else "?" in
        Return (lit "Open file: " ++ filename ++ lit " (flags=0x" ++ lit flags
                ++ lit ", mode=0o" ++ lit mode ++ lit ")")
      else Return (lit "Open file: " ++ lit args)
    else if String.eqb op "close" then
      Return (lit "Close file descriptor " ++ lit args)
    else if String.eqb op "pread" then
      let pread_parts := split "," args in
      if 3 <=? len_list pread_parts then
        let fd := item pread_parts 0 in
        let count := item pread_parts 1 in
        let offset := item pread_parts 2 in
        c <- int16 count ;;
        o <- int16 offset ;;
        Return (lit "Read " ++ str_int c ++ lit " bytes from fd " ++ lit fd
                ++ lit " at offset " ++ str_int o)
      else Return (lit "Read from file: " ++ lit args)
    else if String.eqb op "pwrite" then
      let pwrite_parts := split "," args in
      if 2 <=? len_list pwrite_parts then
        let fd := item pwrite_parts 0 in
        let offset := item pwrite_parts 1 in
        o <- int16 offset ;;
        Return (lit "Write to fd " ++ lit fd ++ lit " at offset " ++ str_int o)
      else Return (lit "Write to file: " ++ lit args)
    else if String.eqb op "fstat" then
      Return (lit "Get file status for fd " ++ lit args)
    else if String.eqb op "stat" then
      filename <- hex_name args ;;
      Return (lit "Get file status: " ++ filename)
    else if String.eqb op "unlink" then
      filename <- hex_name args ;;
      Return (lit "Delete file: " ++ filename)
    else if String.eqb op "readlink" then
      filename <- hex_name args ;;
      Return (lit "Read symlink: " ++ filename)
    else if String.eqb op "mkdir" then
      let mkdir_parts := split "," args in
      match mkdir_parts with
      | first :: _ =>
          dirname <- hex_name first ;;
          Return (lit "Create directory: " ++ dirname)
      | [] => Return (lit "Create directory: " ++ lit args)
      end
    else Return (lit "File operation " ++ lit op ++ lit ": " ++ lit args).

(** r"vFlashErase:([0-9a-fA-F]+),([0-9a-fA-F]+)" *)
Definition re_vflash_erase : re.pattern :=
  re.Chars "vFlashErase:" >> re.Group 1 (re.Plus hex) >> re.Chars ","
  >> re.Group 2 (re.Plus hex).

Definition _dissect_vflash_erase (data : string) : result text :=
  match re.match_ re_vflash_erase data with
  | Some m =>
      let addr := re.group_str m 1 in
      let length := re.group_str m 2 in
      n <- int16 length ;;
      Return (lit "Flash erase " ++ str_int n ++ lit " bytes at 0x" ++ lit addr)
  | None => Return (lit "Flash erase: " ++ lit (slice_from 12 data))
  end.

(** r"vFlashWrite:([0-9a-fA-F]+):" *)
Definition re_vflash_write : re.pattern :=
  re.Chars "vFlashWrite:" >> re.Group 1 (re.Plus hex) >> re.Chars ":".

Definition _dissect_vflash_write (data : string) : result text :=
  match re.match_ re_vflash_write data with
  | Some m =>
      let addr := re.group_str m 1 in
      Return (lit "Flash write at 0x" ++ lit addr)
  | None => Return (lit "Flash write: " ++ lit (slice_from 12 data))
  end.

Definition _dissect_vflash_done (data : string) : result text :=
  Return (lit "Flash write complete").

Definition _v_handlers : list (string * (string -> result text)) :=
  [ ("vCont", _dissect_vcont);
    ("vCont?", _dissect_vcont_query);
    ("vKill", _dissect_vkill);
    ("vRun", _dissect_vrun);
    ("vAttach", _dissect_vattach);
    ("vStopped", _dissect_vstopped);
    ("vMustReplyEmpty", _dissect_vmustreplyempty);
    ("vFile:", _dissect_vfile);
    ("vFlashErase", _dissect_vflash_erase);
    ("vFlashWrite", _dissect_vflash_write);
    ("vFlashDone", _dissect_vflash_done) ].

(** [for cmd, handler in handlers.items(): if data.startswith(cmd): ...]:
    the first entry, in insertion order, whose key begins [data]. *)
Fixpoint first_prefix {V : Type} (handlers : list (string * V)) (data : string)
  : option V :=
  match handlers with
  | [] => None
  | (cmd, handler) :: rest =>
      if startswith data cmd then Some handler else first_prefix rest data
  end.

Definition _dissect_v_command (data : string) : result text :=
  match first_prefix _v_handlers data with
  | Some handler => handler data
  | None => Return (lit "Extended command: " ++ lit data)
  end.

(** ** Handlers of the [q] and [Q] packets *)

Definition _dissect_qsupported (data : string) : result text :=
  let features := if 11 <? len data then slice_from 11 data else "" in
  if truthy features then
    let feat_list := split ";" features in
    Return (lit "Query supported features: "
            ++ join (lit ", ") (map lit feat_list))
  else Return (lit "Query supported features").

(** The read form: [qXfer:], the object [[^:]+] (group 1), [:read:], the
    annex, any run of characters but colons (group 2), [:], the offset
    [[0-9a-fA-F]+] (group 3), a comma, the length [[0-9a-fA-F]+] (group 4). *)
Definition re_qxfer_read : re.pattern :=
  re.Chars "qXfer:" >> re.Group 1 (re.Plus (re.none_of ":"))
  >> re.Chars ":read:" >> re.Group 2 (re.Star (re.none_of ":"))
  >> re.Chars ":" >> re.Group 3 (re.Plus hex) >> re.Chars ","
  >> re.Group 4 (re.Plus hex).

(** The write form: [qXfer:], the object [[^:]+] (group 1), [:write:], the
    annex, any run of characters but colons (group 2), [:], the offset
    [[0-9a-fA-F]+] (group 3), [:]. *)
Definition re_qxfer_write : re.pattern :=
  re.Chars "qXfer:" >> re.Group 1 (re.Plus (re.none_of ":"))
  >> re.Chars ":write:" >> re.Group 2 (re.Star (re.none_of ":"))
  >> re.Chars ":" >> re.Group 3 (re.Plus hex) >> re.Chars ":".

Definition qxfer_objects : list (string * string) :=
  [ ("features", "target features");
    ("libraries", "loaded libraries");
    ("memory-map", "memory map");
    ("threads", "thread info");
    ("auxv", "auxiliary vector");
    ("exec-file", "executable filename");
    ("osdata", "OS data");
    ("siginfo", "signal info");
    ("spu", "SPU data");
    ("traceframe-info", "traceframe info") ].

Definition _dissect_qxfer (data : string) : result text :=
  match re.match_ re_qxfer_read data with
  | Some m =>
      let obj := re.group_str m 1 in
      let annex := re.group_str m 2 in
      let offset := re.group_str m 3 in
      let length := re.group_str m 4 in
      let obj_desc := get_default String.eqb qxfer_objects obj obj in
      if truthy annex
      then Return (lit "Read " ++ lit obj_desc ++ lit ":" ++ lit annex
                   ++ lit " (offset=0x" ++ lit offset ++ lit ", len=0x"
                   ++ lit length ++ lit ")")
      else Return (lit "Read " ++ lit obj_desc ++ lit " (offset=0x"
                   ++ lit offset ++ lit ", len=0x" ++ lit length ++ lit ")")
  | None =>
      match re.match_ re_qxfer_write data with
      | Some m =>
          let obj := re.group_str m 1 in
          let annex := re.group_str m 2 in
          let offset := re.group_str m 3 in
          Return (lit "Write " ++ lit obj ++ lit ":" ++ lit annex
                  ++ lit " at offset 0x" ++ lit offset)
      | None => Return (lit "Transfer: " ++ lit (slice_from 6 data))
      end
  end.

(** The clause [except (ValueError, UnicodeDecodeError)] handles every
    exception of the model. *)
Definition _dissect_qrcmd (data : string) : result text :=
  let cmd_hex := slice_from 6 data in
  match (bs <- fromhex cmd_hex ;; decode_ascii_text bs) with
  | Return cmd => Return (lit "Remote command: " ++ cmd)
  | Raise _ => Return (lit "Remote command (hex): " ++ lit cmd_hex)
  end.

Definition _dissect_qc (data : string) : result text :=
  Return (lit "Query current thread ID").

Definition _dissect_qattached (data : string) : result text :=
  if 9 <? len data
  then Return (lit "Query if attached to process " ++ lit (slice_from 10 data))
  else Return (lit "Query if attached to existing process").

Definition _dissect_qoffsets (data : string) : result text :=
  Return (lit "Query section offsets").

Definition _dissect_qthreadinfo (data : string) : result text :=
  if startswith data "qf"
  then Return (lit "Query first thread info")
  else Return (lit "Query next thread info").

Definition _dissect_qsymbol (data : string) : result text :=
  if String.eqb data "qSymbol::"
  then Return (lit "Symbol lookup ready")
  else Return (lit "Symbol query: " ++ lit (slice_from 8 data)).

Definition _dissect_qtstatus (data : string) : result text :=
  Return (lit "Query trace status").

Definition _dissect_qregisterinfo (data : string) : result text :=
  let reg := slice_from 13 data in
  Return (lit "Query register " ++ lit reg ++ lit " info").

Definition _dissect_qhostinfo (data : string) : result text :=
  Return (lit "Query host info").

Definition _dissect_qprocessinfo (data : string) : result text :=
  Return (lit "Query process info").

Definition _dissect_qmemoryregioninfo (data : string) : result text :=
  let addr := slice_from 18 data in
  Return (lit "Query memory region at 0x" ++ lit addr).

Definition _q_handlers : list (string * (string -> result text)) :=
  [ ("qSupported", _dissect_qsupported);
    ("qXfer", _dissect_qxfer);
    ("qRcmd", _dissect_qrcmd);
    ("qC", _dissect_qc);
    ("qAttached", _dissect_qattached);
    ("qOffsets", _dissect_qoffsets);
    ("qfThreadInfo", _dissect_qthreadinfo);
    ("qsThreadInfo", _dissect_qthreadinfo);
    ("qSymbol", _dissect_qsymbol);
    ("qTStatus", _dissect_qtstatus);
    ("qRegisterInfo", _dissect_qregisterinfo);
    ("qHostInfo", _dissect_qhostinfo);
    ("qProcessInfo", _dissect_qprocessinfo);
    ("qMemoryRegionInfo", _dissect_qmemoryregioninfo) ].

Definition _dissect_q_command (data : string) : result text :=
  match first_prefix _q_handlers data with
  | Some handler => handler data
  | None =>
      if startswith data "qL" then Return (lit "Query thread list")
      else Return (lit "Query: " ++ lit data)
  end.

(** [{'enabled' if val == '1' else 'disabled' if val == '0' else val}] and
    its mirror image. *)
Definition on_off (one zero val : string) : string :=
  if String.eqb val "1" then one
  else if String.eqb val "0" then zero
  else val.

Definition _dissect_Q_command (data : string) : result text :=
  if startswith data "QStartNoAckMode" then Return (lit "Enable no-ack mode")
  else if startswith data "QNonStop" then
    let val := if 9 <? len data then slice_from 9 data else "" in
    Return (lit "Set non-stop mode: " ++ lit (on_off "enabled" "disabled" val))
  else if startswith data "QPassSignals" then
    let signals := if 13 <? len data then slice_from 13 data else "" in
    if truthy signals
    then Return (lit "Pass signals to program: " ++ lit signals)
    else Return (lit "Clear pass signals")
  else if startswith data "QProgramSignals" then
    let signals := if 16 <? len data then slice_from 16 data else "" in
    if truthy signals
    then Return (lit "Program signals: " ++ lit signals)
    else Return (lit "Clear program signals")
  else if startswith data "QThreadEvents" then
    let val := if 14 <? len data then slice_from 14 data else "" in
    Return (lit "Thread events: " ++ lit (on_off "enabled" "disabled" val))
  else if startswith data "QCatchSyscalls" then
    let val := if 15 <? len data then slice_from 15 data else "" in
    if String.eqb val "0"
    then Return (lit "Disable syscall catching")
    else Return (lit "Catch syscalls: " ++ lit val)
  else if startswith data "QSetWorkingDir" then
    let dir_hex := if 15 <? len data then slice_from 15 data else "" in
    let cleared := Return (lit "Clear working directory") in
    if truthy dir_hex then
      except_ValueError
        (dirname <- fromhex_utf8 dir_hex ;;
         Return (lit "Set working directory: " ++ dirname))
        cleared
    else cleared
  else if startswith data "QEnvironmentHexEncoded" then
    let env_hex := if 23 <? len data then slice_from 23 data else "" in
    except_ValueError
      (env <- fromhex_utf8 env_hex ;;
       Return (lit "Set environment: " ++ env))
      (Return (lit "Set environment (hex): " ++ lit env_hex))
  else if startswith data "QEnvironmentReset" then
    Return (lit "Reset environment")
  else if startswith data "QDisableRandomization" then
    let val := if 22 <? len data then slice_from 22 data else "" in
    Return (lit "ASLR: " ++ lit (on_off "disabled" "enabled" val))
  else Return (lit "Set: " ++ lit data).

Definition _dissect_command (data : string) : result text :=
  match data with
  | EmptyString => Return (lit "Empty command")
  | String cmd _ =>
      match get Ascii.eqb _command_handlers cmd with
      | Some handler => handler data
      | None =>
          if Ascii.eqb cmd "v" then _dissect_v_command data
          else if Ascii.eqb cmd "q" then _dissect_q_command data
          else if Ascii.eqb cmd "Q" then _dissect_Q_command data
          else Return (lit "Unknown command: " ++ lit data)
      end
  end.

(** ** Handlers of the responses *)

Definition _dissect_error (data : string) : result text :=
  let code := if 3 <=? len data then slice 1 3 data else slice_from 1 data in
  except_ValueError
    (code_num <- int16 code ;;
     Return (lit "Error " ++ str_int code_num))
    (Return (lit "Error: " ++ lit data)).

Definition reg_names : list (string * string) :=
  [ ("00", "rax"); ("01", "rbx"); ("02", "rcx"); ("03", "rdx");
    ("04", "rsi"); ("05", "rdi"); ("06", "rbp"); ("07", "rsp");
    ("08", "r8"); ("09", "r9"); ("0a", "r10"); ("0b", "r11");
    ("0c", "r12"); ("0d", "r13"); ("0e", "r14"); ("0f", "r15");
    ("10", "rip"); ("11", "eflags"); ("12", "cs"); ("13", "ss");
    ("14", "ds"); ("15", "es"); ("16", "fs"); ("17", "gs") ].

(** r"^[0-9a-f]{1,2}$" *)
Definition re_register_key : re.pattern :=
  re.Bol
  >> re.Many (fun c => between 48 57 c || between 97 102 c) 1 (Some 2%nat)
  >> re.Eol.

(** The variables the loop of [_parse_stop_reply_details] updates. *)
Record details : Set := mkDetails {
  parts : list text;
  thread_id : option string;
  stop_reason : option text
}.

Definition set_reason (st : details) (reason : text) : details :=
  {| parts := parts st; thread_id := thread_id st;
     stop_reason := Some reason |}.

Definition append_part (st : details) (part : text) : details :=
  {| parts := parts st ++ [part]; thread_id := thread_id st;
     stop_reason := stop_reason st |}.

(** One turn of the loop over the items of a [T] stop reply. *)
Definition stop_reply_item (st : details) (item : string) : result details :=
  if negb (truthy item) then Return st
  else if negb (char_in ":" item) then Return (append_part st (lit item))
  else
    kv <- unpack2 (split1 ":" item) ;;
    let key := fst kv in
    let value := snd kv in
    let key_lower := lower key in
    if String.eqb key_lower "thread" then
      Return {| parts := parts st; thread_id := Some value;
                stop_reason := stop_reason st |}
    else if String.eqb key_lower "watch" then
      Return (set_reason st (lit "write watchpoint at 0x" ++ lit value))
    else if String.eqb key_lower "rwatch" then
      Return (set_reason st (lit "read watchpoint at 0x" ++ lit value))
    else if String.eqb key_lower "awatch" then
      Return (set_reason st (lit "access watchpoint at 0x" ++ lit value))
    else if String.eqb key_lower "swbreak" then
      Return (set_reason st (lit "software breakpoint"))
    else if String.eqb key_lower "hwbreak" then
      Return (set_reason st (lit "hardware breakpoint"))
    else if String.eqb key_lower "library" then
      Return (set_reason st (lit "library event"))
    else if String.eqb key_lower "fork" then
      Return (set_reason st (lit "fork (child=" ++ lit value ++ lit ")"))
    else if String.eqb key_lower "vfork" then
      Return (set_reason st (lit "vfork (child=" ++ lit value ++ lit ")"))
    else if String.eqb key_lower "vforkdone" then
      Return (set_reason st (lit "vfork done"))
    else if String.eqb key_lower "exec" then
      exec_name <- hex_name value ;;
      Return (set_reason st (lit "exec (" ++ exec_name ++ lit ")"))
    else if String.eqb key_lower "create" then
      Return (set_reason st (lit "thread created"))
    else if String.eqb key_lower "core" then
      Return (append_part st (lit "core " ++ lit value))
    else if match get String.eqb reg_names key_lower with
            | Some _ => true
            | None => false
            end then Return st
    else if match re.match_ re_register_key key_lower with
            | Some _ => true
            | None => false
            end then Return st
    else Return (append_part st (lit key ++ lit "=" ++ lit value)).

Fixpoint stop_reply_items (st : details) (items : list string)
  : result details :=
  match items with
  | [] => Return st
  | item :: rest =>
      st' <- stop_reply_item st item ;;
      stop_reply_items st' rest
  end.

Definition _parse_stop_reply_details (extra : string) : result text :=
  st <- stop_reply_items
          {| parts := []; thread_id := None; stop_reason := None |}
          (split ";" (rstrip_char ";" extra)) ;;
  let result_parts :=
    (match stop_reason st with
     | Some reason => if truthy_text reason then [reason] else []
     | None => []
     end)
    ++ (match thread_id st with
        | Some th => if truthy th then [lit "thread " ++ lit th] else []
        | None => []
        end)
    ++ parts st in
  Return (match result_parts with
          | [] => []
          | _ :: _ => join (lit ", ") result_parts
          end).

Definition _dissect_stop_reply (data : string) : result text :=
  let reason := slice_to 1 data in
  if String.eqb reason "S" then
    sig <- int16 (slice 1 3 data) ;;
    let sig_name := signal_name sig in
    Return (lit "Stopped: " ++ sig_name)
  else if String.eqb reason "T" then
    sig <- int16 (slice 1 3 data) ;;
    let sig_name := signal_name sig in
    let extra := slice_from 3 data in
    let plain := Return (lit "Stopped: " ++ sig_name) in
    if truthy extra then
      details <- _parse_stop_reply_details extra ;;
      if truthy_text details
      then Return (lit "Stopped: " ++ sig_name ++ lit " (" ++ details
                   ++ lit ")")
      else plain
    else plain
  else Return (lit "Stop reply: " ++ lit data).

Definition _dissect_exit_reply (data : string) : result text :=
  let code := slice_from 1 data in
  except_ValueError
    (code_num <- int16 code ;;
     Return (lit "Process exited with code " ++ str_int code_num))
    (Return (lit "Process exited: " ++ lit data)).

Definition _dissect_terminate_reply (data : string) : result text :=
  let sig := if 3 <=? len data then slice 1 3 data else slice_from 1 data in
  except_ValueError
    (sig_num <- int16 sig ;;
     let sig_name := signal_name sig_num in
     Return (lit "Process terminated by " ++ sig_name))
    (Return (lit "Process terminated: " ++ lit data)).

Definition _dissect_console_output (data : string) : result text :=
  let output_hex := slice_from 1 data in
  except_ValueError
    (output <- fromhex_utf8 output_hex ;;
     Return (lit "Console: " ++ output))
    (Return (lit "Console output (hex): " ++ lit output_hex)).

Definition _dissect_file_io (data : string) : result text :=
  Return (lit "File I/O request: " ++ lit (slice_from 1 data)).

(** The loop of [_dissect_binary_memory_response] over [binary_data[i:]]. *)
Fixpoint count_binary (binary_data : string) (byte_count : Z) : Z :=
  match binary_data with
  | EmptyString => byte_count
  | String c t =>
      if Ascii.eqb c "}" then
        match t with
        | String _ t' => count_binary t' (byte_count + 1)
        | EmptyString => count_binary t (byte_count + 1)
        end
      else count_binary t (byte_count + 1)
  end.

Definition _dissect_binary_memory_response (data : string) : result text :=
  let binary_data := slice_from 1 data in
  let byte_count := count_binary binary_data 0 in
  Return (lit "Binary data: " ++ str_int byte_count ++ lit " bytes").

Definition _describe_file_data (file_data : string) (byte_count : Z) : text :=
  if negb (truthy file_data) then lit ""
  else if startswith file_data "MZ" then lit " (PE header)"
  else if startswith file_data (String "127" "ELF")
          || startswith file_data (String "127" EmptyString ++ "ELF")%string
  then lit " (ELF header)"
  else if 0 <? byte_count then lit " (" ++ str_int byte_count ++ lit " bytes)"
  else lit "".

Definition _dissect_file_io_response (data : string) : result text :=
  if startswith data "F-1" then
    let parts := split "," (slice_from 1 data) in
    if 2 <=? len_list parts then
      let errno := item (split ";" (item parts 1)) 0 in
      Return (lit "File error: errno " ++ lit errno)
    else Return (lit "File error")
  else if startswith data "F" then
    let rest := slice_from 1 data in
    split_rest <-
      (if char_in ";" rest
       then p <- unpack2 (split1 ";" rest) ;; Return (fst p, Some (snd p))
       else Return (rest, None)) ;;
    let result_part : string := fst split_rest in
    let file_data : option string := snd split_rest in
    let result_parts := split "," result_part in
    let result := match result_parts with
                  | first :: _ => first
                  | [] => "?"
                  end in
    except_ValueError
      (result_int <- int16 result ;;
       match file_data with
       | Some fd =>
           let data_desc := _describe_file_data fd result_int in
           Return (lit "File result: " ++ str_int result_int ++ data_desc)
       | None => Return (lit "File result: " ++ str_int result_int)
       end)
      (Return (lit "File result: " ++ lit result))
  else Return (lit "File response: " ++ lit data).

(** r"<(\w+)[\s>]" *)
Definition re_root_element : re.pattern :=
  re.Chars "<" >> re.Group 1 (re.Plus isword)
  >> re.In_ (fun c => isspace c || Ascii.eqb c ">").

Definition _dissect_qxfer_response (data : string) (final : bool)
  : result text :=
  let status := if final then "final" else "partial" in
  if startswith (lstrip data) "<?xml" || startswith (lstrip data) "<" then
    match re.search re_root_element data with
    | Some m =>
        let root := re.group_str m 1 in
        Return (lit "XML data (" ++ lit status ++ lit "): <" ++ lit root
                ++ lit "> (" ++ str_int (len data) ++ lit " bytes)")
    | None =>
        Return (lit "XML data (" ++ lit status ++ lit "): "
                ++ str_int (len data) ++ lit " bytes")
    end
  else
    Return (lit "Transfer data (" ++ lit status ++ lit "): "
            ++ str_int (len data) ++ lit " bytes").

Definition _dissect_thread_id_response (data : string) : result text :=
  if char_in "," data then
    let threads := split "," data in
    Return (lit "Threads: " ++ join (lit ", ") (map lit threads))
  else Return (lit "Thread: " ++ lit data).

Definition vcont_supported (act : string) : text :=
  if String.eqb act "c" then lit "continue"
  else if String.eqb act "C" then lit "continue with signal"
  else if String.eqb act "s" then lit "step"
  else if String.eqb act "S" then lit "step with signal"
  else if String.eqb act "t" then lit "stop"
  else if String.eqb act "r" then lit "range step"
  else lit act.

Definition _dissect_vcont_response (data : string) : result text :=
  if String.eqb data "vCont"
  then Return (lit "vCont supported (no actions listed)")
  else
    let actions :=
      if startswith data "vCont;" then slice_from 6 data
      else slice_from 5 data in
    let action_list := if truthy actions then split ";" actions else [] in
    let descriptions := map vcont_supported action_list in
    Return (lit "vCont supported: " ++ join (lit ", ") descriptions).

Definition HEXDIGITS : string := "0123456789abcdefABCDEF".

(** The loop of [_is_rle_hex_data] over [data[i:]]. *)
Fixpoint rle_shape (data : string) : bool :=
  match data with
  | EmptyString => true
  | String c t =>
      if char_in c HEXDIGITS then rle_shape t
      else if Ascii.eqb c "*" && truthy t then
        match t with
        | String next_char t' =>
            if (32 <=? ord next_char) && (ord next_char <=? 126)
            then rle_shape t'
            else false
        | EmptyString => false
        end
      else false
  end.

Definition _is_rle_hex_data (data : string) : bool :=
  if negb (char_in "*" data) then false else rle_shape data.

(** The loop of [_dissect_rle_hex_data] over [data[i:]]: three characters
    are taken when the second is a star and a third exists, two when the
    first is a star, one otherwise. *)
Fixpoint rle_decoded_len (data : string) (decoded_len : Z) : Z :=
  match data with
  | EmptyString => decoded_len
  | String c t =>
      match t with
      | String c1 t1 =>
          if Ascii.eqb c1 "*" then
            match t1 with
            | String c2 t2 =>
                let repeat := ord c2 - 29 in
                rle_decoded_len t2 (decoded_len + repeat)
            | EmptyString => rle_decoded_len t (decoded_len + 1)
            end
          else if Ascii.eqb c "*" then rle_decoded_len t1 decoded_len
          else rle_decoded_len t (decoded_len + 1)
      | EmptyString =>
          if Ascii.eqb c "*" then decoded_len else decoded_len + 1
      end
  end.

Definition _dissect_rle_hex_data (self : Dissector) (data : string)
  : result text :=
  let decoded_len := rle_decoded_len data 0 in
  let byte_count := decoded_len / 2 in
  let other := Return (lit "Data: " ++ str_int byte_count ++ lit " bytes") in
  match _last_command self with
  | Some last_command =>
      if truthy last_command then
        let cmd := slice_to 1 last_command in
        if String.eqb cmd "g" then
          Return (lit "Registers: " ++ str_int byte_count ++ lit " bytes")
        else if String.eqb cmd "m" || String.eqb cmd "x" then
          Return (lit "Memory: " ++ str_int byte_count ++ lit " bytes")
        else if String.eqb cmd "p" then
          Return (lit "Register value: " ++ str_int byte_count ++ lit " bytes")
        else other
      else other
  | None => other
  end.

(** r"\b\w+[:=]" *)
Definition re_key_value : re.pattern :=
  re.WordB >> re.Plus isword >> re.In_ (re.one_of ":=").

Definition _is_key_value_data (data : string) : bool :=
  if negb (char_in ":" data) && negb (char_in ";" data) then false
  else if char_in "*" data then false
  else
    match re.search re_key_value data with
    | Some _ => true
    | None => false
    end.

(** [data[i:i+2] for i in range(0, len(data), 2)]. *)
Fixpoint pairs (data : string) : list string :=
  match data with
  | EmptyString => []
  | String a EmptyString => [String a EmptyString]
  | String a (String b t) => String a (String b EmptyString) :: pairs t
  end.

Definition _dissect_hex_data (self : Dissector) (data : string)
  : result text :=
  let byte_count := len data / 2 in
  let label :=
    match _last_command self with
    | Some last_command =>
        if truthy last_command then
          let cmd := slice_to 1 last_command in
          if String.eqb cmd "g" then "Registers"
          else if String.eqb cmd "m" || String.eqb cmd "x" then "Memory"
          else if String.eqb cmd "p" then "Register value"
          else "Data"
        else "Data"
    | None => "Data"
    end in
  if byte_count <=? 16 then
    let formatted := join (lit " ") (map lit (pairs data)) in
    Return (lit label ++ lit ": " ++ formatted)
  else Return (lit label ++ lit ": " ++ str_int byte_count ++ lit " bytes").

Definition key_value_pair (item : string) : result text :=
  if char_in ":" item then
    kv <- unpack2 (split1 ":" item) ;;
    Return (lit (fst kv) ++ lit "=" ++ lit (snd kv))
  else if char_in "=" item then Return (lit item)
  else Return (lit item).

Definition _dissect_key_value (data : string) : result text :=
  pairs <- for_each key_value_pair (re.split (re.one_of ";,") data) ;;
  Return (lit "Features: " ++ join (lit ", ") pairs).

(** r"^p?[0-9a-fA-F]+(\.[0-9a-fA-F]+)?$" *)
Definition re_thread_id : re.pattern :=
  re.Bol >> re.Opt (re.Chars "p") >> re.Plus hex
  >> re.Opt (re.Group 1 (re.Chars "." >> re.Plus hex)) >> re.Eol.

Definition _dissect_response (self : Dissector) (data : string)
  : result text :=
  if negb (truthy data) then Return (lit "Empty response")
  else if String.eqb data "OK" then Return (lit "OK")
  else if String.eqb data "" then
    Return (lit "Empty response (command not supported)")
  else if String.eqb data "l" then Return (lit "End of list")
  else if startswith data "l" && (1 <? len data) then
    _dissect_qxfer_response (slice_from 1 data) true
  else if startswith data "m" && (1 <? len data) then
    let rest := slice_from 1 data in
    match re.match_ re_thread_id rest with
    | Some _ => _dissect_thread_id_response rest
    | None => _dissect_qxfer_response rest false
    end
  else if startswith data "E" then _dissect_error data
  else
    let first := slice_to 1 data in
    if String.eqb first "S" || String.eqb first "T" then
      _dissect_stop_reply data
    else if String.eqb first "W" then _dissect_exit_reply data
    else if String.eqb first "X" then _dissect_terminate_reply data
    else if String.eqb first "O" then _dissect_console_output data
    else if String.eqb first "F" then _dissect_file_io_response data
    else if String.eqb first "b" then _dissect_binary_memory_response data
    else if startswith data "QC" then
      Return (lit "Current thread: " ++ lit (slice_from 2 data))
    else if startswith data "vCont" then _dissect_vcont_response data
    else if all_chars (fun c => char_in c HEXDIGITS) data then
      _dissect_hex_data self data
    else if _is_rle_hex_data data then _dissect_rle_hex_data self data
    else if _is_key_value_data data then _dissect_key_value data
    else Return (lit "Response: " ++ lit data).

Definition _dissect_notification (data : string) : result text :=
  if startswith data "Stop:"
  then Return (lit "Async stop notification: " ++ lit (slice_from 5 data))
  else Return (lit "Notification: " ++ lit data).

Definition __init__ : Dissector := {| _last_command := None |}.

(** [dissect] gives the dissector it leaves behind and what it returned
    or raised; the assignment to [self._last_command] comes before the
    command is taken apart, so it stands even when the handler raises. *)
Definition dissect (self : Dissector) (packet : packet.Packet)
  (is_response : bool) : Dissector * result text :=
  match packet.type packet with
  | packet.ACK => (self, Return (lit "ACK"))
  | packet.NACK => (self, Return (lit "NACK (request retransmission)"))
  | packet.INTERRUPT => (self, Return (lit "Interrupt (Ctrl-C)"))
  | packet.NOTIFICATION =>
      (self, _dissect_notification (packet.data_str packet))
  | packet.PACKET =>
      let data := packet.data_str packet in
      if negb (truthy data) then (self, Return (lit "Empty packet"))
      else if is_response then (self, _dissect_response self data)
      else
        let self' := {| _last_command := Some data |} in
        (self', _dissect_command data)
  end.

End dissector.

(** * Vocabulary of the statements *)

(** The bytes of an 8-bit string literal. *)
Definition bytes_of (s : string) : list byte := list_byte_of_string s.

(** The delimiter that opened the packet being read. *)
Definition delimiter (self : packet.PacketParser) : byte :=
  if packet._is_notification self then "%"%byte else "$"%byte.

(** What holds of a parser between two bytes, from [__init__] on. *)
Definition parser_inv (self : packet.PacketParser) : Prop :=
  match packet._state self with
  | packet.IDLE => True
  | packet.IN_PACKET =>
      packet._raw_buffer self = delimiter self :: packet._buffer self
  | packet.CHECKSUM_1 =>
      packet._raw_buffer self
      = delimiter self :: packet._buffer self ++ ["#"%byte]
      /\ packet._checksum_chars self = []
  | packet.CHECKSUM_2 =>
      exists c,
        packet._raw_buffer self
        = delimiter self :: packet._buffer self ++ ["#"%byte; c]
        /\ packet._checksum_chars self = [c]
  end.

(** What holds of every packet the parser yields. *)
Definition frame_inv (pkt : packet.Packet) : Prop :=
  match packet.type pkt with
  | packet.PACKET =>
      exists c1 c2,
        packet.raw pkt = "$"%byte :: packet.data pkt ++ ["#"%byte; c1; c2]
        /\ packet.checksum pkt = packet.parse_checksum [c1; c2]
        /\ packet.valid_checksum pkt
           = (packet.compute_checksum (packet.data pkt)
              =? packet.checksum pkt)
  | packet.NOTIFICATION =>
      exists c1 c2,
        packet.raw pkt = "%"%byte :: packet.data pkt ++ ["#"%byte; c1; c2]
        /\ packet.checksum pkt = packet.parse_checksum [c1; c2]
        /\ packet.valid_checksum pkt
           = (packet.compute_checksum (packet.data pkt)
              =? packet.checksum pkt)
  | _ =>
      packet.data pkt = [] /\ packet.checksum pkt = 0
      /\ exists b, packet.raw pkt = [b]
  end.

(** The two checksum characters of a packet: the last two bytes of [raw]. *)
Definition checksum_chars_of (pkt : packet.Packet) : list byte :=
  skipn (List.length (packet.raw pkt) - 2) (packet.raw pkt).

(** A parser that has read a packet start, one payload byte and an escape
    prefix. *)
Definition parser_after_escape : packet.PacketParser :=
  fst (packet.feed packet.__init__ (bytes_of "$m}")).

(** A packet frame with payload [payload]; the dissector reads nothing but
    the kind and the payload of a frame. *)
Definition packet_frame (payload : list byte) (checksum : Z) (raw : list byte)
  (valid : bool) : packet.Packet :=
  {| packet.type := packet.PACKET; packet.data := payload;
     packet.checksum := checksum; packet.raw := raw;
     packet.valid_checksum := valid |}.

(** The dissector once the command [command] has been dissected. *)
Definition after_command (command : string) : dissector.Dissector :=
  {| dissector._last_command := Some command |}.

(** Dissecting a sequence of frames as responses, one after the other. *)
Definition dissect_responses (self : dissector.Dissector)
  (pkts : list packet.Packet) : dissector.Dissector :=
  fold_left (fun d p => fst (dissector.dissect d p true)) pkts self.

(** [all(c in "0123456789abcdefABCDEF" for c in data)]. *)
Definition all_hex (data : string) : bool :=
  Py.all_chars (fun c => Py.char_in c dissector.HEXDIGITS) data.

(** Whether [data] begins with a character of [set]. *)
Definition first_in (set data : string) : bool :=
  match data with
  | String c _ => Py.char_in c set
  | EmptyString => false
  end.

(** The first characters that send a response to a handler of its own,
    whatever follows them. *)
Definition LEADERS : string := "OlmESTWXFbQv".

(** The label that the first byte of the memorized command selects,
    following the spec's words: [g] gives Registers, [m] or [x] Memory, [p]
    Register value, anything else (or no command at all) Data. *)
Definition context_label (self : dissector.Dissector) : string :=
  match dissector._last_command self with
  | Some (String c _) =>
      if Ascii.eqb c "g" then "Registers"
      else if Ascii.eqb c "m" || Ascii.eqb c "x" then "Memory"
      else if Ascii.eqb c "p" then "Register value"
      else "Data"
  | _ => "Data"
  end.

(** What [_dissect_hex_data] writes after the label: the payload in groups
    of two characters up to 16 bytes, the byte count beyond. *)
Definition hex_rendering (data : string) : Py.text :=
  if Py.len data / 2 <=? 16
  then Py.join (Py.lit " ") (map Py.lit (dissector.pairs data))
  else Py.str_int (Py.len data / 2) ++ Py.lit " bytes".

(** The payload of the RLE scenario: eight zeros, a star, a double quote
    (character 34) and eight zeros. *)
Definition rle_example : string := "00000000*" ++ String "034" "00000000".

(** The expansion of a run-length encoded payload, following the spec's
    words: each star and the character [c] after it stand for [ord(c) - 29]
    more copies of the data character before them. *)
Fixpoint copies (n : nat) (prev : option ascii) : string :=
  match n, prev with
  | S n', Some c => String c (copies n' prev)
  | _, _ => EmptyString
  end.

Fixpoint spec_rle_expand (prev : option ascii) (payload : string) : string :=
  match payload with
  | EmptyString => EmptyString
  | String c t =>
      if Ascii.eqb c "*" then
        match t with
        | String n t' =>
            (copies (Z.to_nat (Py.ord n - 29)) prev
             ++ spec_rle_expand prev t')%string
        | EmptyString => EmptyString
        end
      else String c (spec_rle_expand (Some c) t)
  end.

(** All the bytes, in order. *)
Definition all_bytes : list byte :=
  map (fun n => Py.byte_of_Z (Z.of_nat n)) (seq 0 256).

(** The pairs of checksum characters that [int(..., 16)] takes: two
    hexadecimal digits, or one digit with a blank or a sign before it or a
    blank after it. *)
Definition hex_byte (c : byte) : bool := re.hexdigit (ascii_of_byte c).
Definition blank_byte (c : byte) : bool := Py.Py_ISSPACE (ascii_of_byte c).
Definition sign_byte (c : byte) : bool :=
  Byte.eqb c "+"%byte || Byte.eqb c "-"%byte.

Definition accepted_checksum_chars (c1 c2 : byte) : bool :=
  (hex_byte c1 && hex_byte c2) || (blank_byte c1 && hex_byte c2)
  || (hex_byte c1 && blank_byte c2) || (sign_byte c1 && hex_byte c2).

(** Whether a computation returns, rather than raises. *)
Definition returns {A : Type} (r : Py.result A) : bool :=
  match r with
  | Py.Return _ => true
  | Py.Raise _ => false
  end.

(** [c in "0123456789abcdefABCDEF"]; a printable character of ASCII. *)
Definition is_hexdigit (c : ascii) : bool := Py.char_in c dissector.HEXDIGITS.

Definition printable (c : ascii) : bool :=
  (32 <=? Py.ord c) && (Py.ord c <=? 126).

(** An RLE payload in the spec's sense: hexadecimal digits, each one
    possibly followed by a run, that is a star and a printable character. *)
Fixpoint well_formed_rle (payload : string) : bool :=
  match payload with
  | EmptyString => true
  | String c t =>
      is_hexdigit c
      && match t with
         | String c1 t1 =>
             if Ascii.eqb c1 "*" then
               match t1 with
               | String n t2 => printable n && well_formed_rle t2
               | EmptyString => false
               end
             else well_formed_rle t
         | EmptyString => true
         end
  end.

(** The number of runs of such a payload. *)
Fixpoint runs (payload : string) : Z :=
  match payload with
  | EmptyString => 0
  | String c t =>
      match t with
      | String c1 (String n t2) =>
          if Ascii.eqb c1 "*" then 1 + runs t2 else runs t
      | _ => runs t
      end
  end.

(** The bytes that [_handle_idle] acts upon. *)
Definition is_control (b : byte) : bool :=
  let n := Py.int_of_byte b in
  (n =? constants.ACK) || (n =? constants.NACK) || (n =? constants.INTERRUPT)
  || (n =? constants.PACKET_START) || (n =? constants.NOTIFICATION_START).

(** The bytes a parser drops: those read in [IDLE] that are no control. *)
Definition ignored (self : packet.PacketParser) (b : byte) : bool :=
  match packet._state self with
  | packet.IDLE => negb (is_control b)
  | _ => false
  end.

(** The bytes of an input that the parser does not drop, in order. *)
Fixpoint accounted (self : packet.PacketParser) (B : list byte) : list byte :=
  match B with
  | [] => []
  | b :: rest =>
      (if ignored self b then [] else [b])
      ++ accounted (fst (packet._process_byte self b)) rest
  end.

(** The bytes of the packet being read, not yielded yet. *)
Definition pending (self : packet.PacketParser) : list byte :=
  match packet._state self with
  | packet.IDLE => []
  | _ => packet._raw_buffer self
  end.

(** The make of a yielded packet. *)
Definition frame_shape (pkt : packet.Packet) : Prop :=
  match packet.type pkt with
  | packet.ACK => pkt = packet.Packet_raw packet.ACK ["+"%byte]
  | packet.NACK => pkt = packet.Packet_raw packet.NACK ["-"%byte]
  | packet.INTERRUPT => pkt = packet.Packet_raw packet.INTERRUPT [Byte.x03]
  | packet.PACKET =>
      ~ In "#"%byte (packet.data pkt)
      /\ exists c1 c2,
           packet.raw pkt = "$"%byte :: packet.data pkt ++ ["#"%byte; c1; c2]
  | packet.NOTIFICATION =>
      ~ In "#"%byte (packet.data pkt)
      /\ exists c1 c2,
           packet.raw pkt = "%"%byte :: packet.data pkt ++ ["#"%byte; c1; c2]
  end.

(** Two parsers that go on alike: in the same state, and with the same
    buffers as far as the state still reads them. *)
Definition alike (p q : packet.PacketParser) : Prop :=
  packet._state p = packet._state q
  /\ match packet._state p with
     | packet.IDLE => True
     | packet.IN_PACKET =>
         packet._buffer p = packet._buffer q
         /\ packet._raw_buffer p = packet._raw_buffer q
         /\ packet._is_notification p = packet._is_notification q
     | _ =>
         packet._buffer p = packet._buffer q
         /\ packet._raw_buffer p = packet._raw_buffer q
         /\ packet._is_notification p = packet._is_notification q
         /\ packet._checksum_chars p = packet._checksum_chars q
     end.

(** The value of a hexadecimal digit, 0 for another byte. *)
Definition hex_digit_of (c : byte) : Z :=
  let n := Py.int_of_byte c in
  if (48 <=? n) && (n <=? 57) then n - 48
  else if (97 <=? n) && (n <=? 102) then n - 87
  else if (65 <=? n) && (n <=? 70) then n - 55
  else 0.

(** The escape prefix, and a byte as it is written after the prefix. *)
Definition ESCAPE_BYTE : byte := "}"%byte.

Definition xor_escape (b : byte) : byte :=
  Py.byte_of_Z (Z.lxor (Py.int_of_byte b) constants.ESCAPE_XOR).

(** A way of writing binary data for the wire: the bytes that [must] picks
    and the escape prefix itself go as the prefix and the flipped byte, the
    others as they are. *)
Definition escape (must : byte -> bool) (data : list byte) : list byte :=
  flat_map (fun b => if must b || Byte.eqb b ESCAPE_BYTE
                     then [ESCAPE_BYTE; xor_escape b] else [b]) data.












(** Whether a computation, when it returns, returns a text that is not
    empty. *)
Definition says_something (r : Py.result Py.text) : bool :=
  match r with
  | Py.Return t => Py.truthy_text t
  | Py.Raise _ => true
  end.

(** * Properties of the parser *)

Lemma feed_app (self : packet.PacketParser) (a b : list byte) :
  packet.feed self (a ++ b)
  = let '(self1, packets1) := packet.feed self a in
    let '(self2, packets2) := packet.feed self1 b in
    (self2, packets1 ++ packets2).
Proof.
  revert self; induction a as [|x a IH]; intros self; simpl.
  - destruct (packet.feed self b); reflexivity.
  - destruct (packet._process_byte self x) as [self1 o].
    rewrite IH.
    destruct (packet.feed self1 a) as [self2 ps].
    destruct (packet.feed self2 b) as [self3 qs].
    destruct o; reflexivity.
Qed.

Lemma feed_chunks_concat (self : packet.PacketParser)
  (chunks : list (list byte)) :
  packet.feed_chunks self chunks = packet.feed self (List.concat chunks).
Proof.
  revert self; induction chunks as [|c chunks IH]; intros self; simpl.
  - reflexivity.
  - rewrite feed_app.
    destruct (packet.feed self c) as [self1 ps].
    rewrite IH. reflexivity.
Qed.

Lemma feed_chunks_bytewise (self : packet.PacketParser) (B : list byte) :
  packet.feed_chunks self (map (fun b => [b]) B) = packet.feed self B.
Proof.
  rewrite feed_chunks_concat. f_equal.
  induction B as [|b B IH]; simpl; [reflexivity | now rewrite IH].
Qed.

(** C4: feeding the chunks of any splitting of a byte sequence, in order,
    leaves the same parser and yields the same packets, field by field, as
    feeding the sequence one byte at a time. *)
Theorem feed_chunk_invariance (self : packet.PacketParser)
  (chunks : list (list byte)) :
  packet.feed_chunks self chunks
  = packet.feed_chunks self (map (fun b => [b]) (List.concat chunks)).
Proof.
  rewrite feed_chunks_bytewise. apply feed_chunks_concat.
Qed.

(** C9: in [IN_PACKET] the byte ['#'] always ends the payload: the parser
    goes to [CHECKSUM_1], the payload buffer is left as it is (whatever its
    last byte, an escape prefix included), and nothing is yielded. *)
Theorem hash_ends_payload (self : packet.PacketParser) :
  packet._state self = packet.IN_PACKET ->
  packet._process_byte self "#"%byte
  = ({| packet._state := packet.CHECKSUM_1;
        packet._buffer := packet._buffer self;
        packet._packet_start := packet._packet_start self;
        packet._checksum_chars := [];
        packet._is_notification := packet._is_notification self;
        packet._raw_buffer := packet._raw_buffer self ++ ["#"%byte] |},
     None).
Proof.
  intros H. unfold packet._process_byte. rewrite H. reflexivity.
Qed.

(** The step on a parser whose payload ends with the escape prefix. *)
Lemma hash_ends_payload_witness :
  packet._buffer parser_after_escape = bytes_of "m}"
  /\ packet._process_byte parser_after_escape "#"%byte
     = ({| packet._state := packet.CHECKSUM_1;
           packet._buffer := bytes_of "m}";
           packet._packet_start := 0;
           packet._checksum_chars := [];
           packet._is_notification := false;
           packet._raw_buffer := bytes_of "$m}#" |},
        None).
Proof.
  split; [reflexivity |].
  apply (hash_ends_payload parser_after_escape). reflexivity.
Defined.

(** The byte behind each framing constant, by running through the bytes. *)
Ltac the_byte b :=
  destruct b; intros H; vm_compute in H; try discriminate H; reflexivity.

Lemma int_of_byte_dollar (b : byte) :
  Py.int_of_byte b = constants.PACKET_START -> b = "$"%byte.
Proof. the_byte b. Qed.

Lemma int_of_byte_percent (b : byte) :
  Py.int_of_byte b = constants.NOTIFICATION_START -> b = "%"%byte.
Proof. the_byte b. Qed.

Lemma int_of_byte_hash (b : byte) :
  Py.int_of_byte b = constants.PACKET_END -> b = "#"%byte.
Proof. the_byte b. Qed.

(** A one-byte frame yielded in [IDLE], the parser staying there. *)
Ltac one_byte_frame St :=
  simpl; rewrite St; split; [exact I |];
  intros pkt [= <-]; unfold frame_inv; simpl; eauto.

Lemma parser_inv_init : parser_inv packet.__init__.
Proof. exact I. Qed.

Lemma process_byte_inv (self : packet.PacketParser) (b : byte) :
  parser_inv self ->
  parser_inv (fst (packet._process_byte self b))
  /\ (forall pkt, snd (packet._process_byte self b) = Some pkt -> frame_inv pkt).
Proof.
  unfold parser_inv, packet._process_byte.
  destruct (packet._state self) eqn:St; intros Inv.
  - (* IDLE *)
    unfold packet._handle_idle.
    destruct (Py.int_of_byte b =? constants.ACK) eqn:E1;
      [one_byte_frame St |].
    destruct (Py.int_of_byte b =? constants.NACK) eqn:E2;
      [one_byte_frame St |].
    destruct (Py.int_of_byte b =? constants.INTERRUPT) eqn:E3;
      [one_byte_frame St |].
    destruct (Py.int_of_byte b =? constants.PACKET_START) eqn:E4.
    { apply Z.eqb_eq, int_of_byte_dollar in E4; subst b.
      simpl; split; [reflexivity | discriminate]. }
    destruct (Py.int_of_byte b =? constants.NOTIFICATION_START) eqn:E5.
    { apply Z.eqb_eq, int_of_byte_percent in E5; subst b.
      simpl; split; [reflexivity | discriminate]. }
    simpl; rewrite St; split; [exact I | discriminate].
  - (* IN_PACKET *)
    unfold packet._handle_in_packet.
    destruct (Py.int_of_byte b =? constants.PACKET_END) eqn:E.
    + apply Z.eqb_eq, int_of_byte_hash in E; subst b.
      simpl; split; [| discriminate].
      unfold delimiter in *; simpl. rewrite Inv. split; reflexivity.
    + simpl; rewrite St; split; [| discriminate].
      unfold delimiter in *; simpl. rewrite Inv. reflexivity.
  - (* CHECKSUM_1 *)
    destruct Inv as [Raw Cs].
    unfold packet._handle_checksum_1; simpl; split; [| discriminate].
    exists b. unfold delimiter in *; simpl. rewrite Raw, Cs.
    split; [| reflexivity].
    simpl. now rewrite <- app_assoc.
  - (* CHECKSUM_2 *)
    destruct Inv as (c & Raw & Cs).
    unfold packet._handle_checksum_2; simpl; split; [exact I|].
    intros pkt [= <-]. unfold frame_inv, delimiter in *; simpl.
    rewrite Raw, Cs.
    destruct (packet._is_notification self); simpl;
      exists c, b; (split; [now rewrite <- app_assoc | split; reflexivity]).
Qed.

Lemma feed_inv (B : list byte) (self : packet.PacketParser) :
  parser_inv self ->
  parser_inv (fst (packet.feed self B))
  /\ Forall frame_inv (snd (packet.feed self B)).
Proof.
  revert self; induction B as [|b B IH]; intros self Inv; simpl.
  - split; [exact Inv | constructor].
  - destruct (process_byte_inv self b Inv) as [Inv1 Fr].
    destruct (packet._process_byte self b) as [self1 o]; simpl in *.
    destruct (IH self1 Inv1) as [Inv2 Frs].
    destruct (packet.feed self1 B) as [self2 ps]; simpl in *.
    split; [exact Inv2|].
    destruct o as [pkt|]; [constructor; [now apply Fr | exact Frs] | exact Frs].
Qed.

(** Every packet yielded from a fresh parser is well formed. *)
Lemma fed_frames_inv (B : list byte) (pkt : packet.Packet) :
  In pkt (snd (packet.feed packet.__init__ B)) -> frame_inv pkt.
Proof.
  intros H.
  destruct (feed_inv B packet.__init__ parser_inv_init) as [_ F].
  rewrite Forall_forall in F. now apply F.
Qed.

Lemma last_two (l : list byte) (c1 c2 : byte) :
  skipn (List.length (l ++ [c1; c2]) - 2) (l ++ [c1; c2]) = [c1; c2].
Proof.
  rewrite length_app; simpl.
  replace (List.length l + 2 - 2)%nat with (List.length l + 0)%nat by lia.
  rewrite skipn_app, skipn_all2 by lia. simpl.
  replace (List.length l + 0 - List.length l)%nat with 0%nat by lia.
  reflexivity.
Qed.

Lemma last_two_of_frame (d : byte) (payload : list byte) (c1 c2 : byte) :
  let raw := d :: payload ++ ["#"%byte; c1; c2] in
  skipn (List.length raw - 2) raw = [c1; c2].
Proof.
  intros raw. subst raw.
  replace (d :: payload ++ ["#"%byte; c1; c2])
    with ((d :: payload ++ ["#"%byte]) ++ [c1; c2])
    by (simpl; now rewrite <- app_assoc).
  apply last_two.
Qed.

Lemma frame_checksum_chars (pkt : packet.Packet) :
  frame_inv pkt ->
  packet.type pkt = packet.PACKET \/ packet.type pkt = packet.NOTIFICATION ->
  packet.checksum pkt = packet.parse_checksum (checksum_chars_of pkt)
  /\ packet.valid_checksum pkt
     = (packet.compute_checksum (packet.data pkt) =? packet.checksum pkt).
Proof.
  unfold frame_inv, checksum_chars_of.
  intros F [T | T]; rewrite T in F; destruct F as (c1 & c2 & Raw & Cs & V);
    (split; [| exact V]);
    rewrite Cs, Raw; f_equal; symmetry; apply last_two_of_frame.
Qed.

(** C5 (as corrected): in every packet or notification yielded by the parser
    whose two checksum characters [int(..., 16)] rejects, the checksum field
    is 0, and [valid_checksum] tells whether the payload bytes sum to 0
    modulo 256. *)
Theorem rejected_checksum_reads_as_zero (B : list byte) (pkt : packet.Packet) :
  In pkt (snd (packet.feed packet.__init__ B)) ->
  packet.type pkt = packet.PACKET \/ packet.type pkt = packet.NOTIFICATION ->
  (forall v, packet.read_checksum (checksum_chars_of pkt) <> Py.Return v) ->
  packet.checksum pkt = 0
  /\ packet.valid_checksum pkt
     = (packet.compute_checksum (packet.data pkt) =? 0).
Proof.
  intros HIn HT Hrej.
  destruct (frame_checksum_chars pkt (fed_frames_inv B pkt HIn) HT) as [Cs V].
  assert (Z0 : packet.checksum pkt = 0).
  { rewrite Cs. unfold packet.parse_checksum.
    destruct (packet.read_checksum (checksum_chars_of pkt)) as [v|e] eqn:R.
    - now elim (Hrej v).
    - simpl. destruct e; reflexivity. }
  split; [exact Z0 | now rewrite V, Z0].
Qed.

(** The packet read from [$g#zz]: its checksum characters are rejected, its
    checksum is 0, and its payload does not sum to 0. *)
Lemma rejected_checksum_reads_as_zero_witness :
  let pkt := {| packet.type := packet.PACKET;
                packet.data := bytes_of "g";
                packet.checksum := 0;
                packet.raw := bytes_of "$g#zz";
                packet.valid_checksum := false |} in
  In pkt (snd (packet.feed packet.__init__ (bytes_of "$g#zz")))
  /\ checksum_chars_of pkt = bytes_of "zz"
  /\ packet.checksum pkt = 0
  /\ packet.valid_checksum pkt
     = (packet.compute_checksum (packet.data pkt) =? 0).
Proof.
  intros pkt.
  split; [left; reflexivity |].
  split; [reflexivity |].
  apply (rejected_checksum_reads_as_zero (bytes_of "$g#zz") pkt).
  - left. reflexivity.
  - left. reflexivity.
  - intros v H. vm_compute in H. discriminate H.
Defined.

(** C5 (counterexample): the packet read from [$#zz] has two checksum
    characters that are not hexadecimal digits, its checksum is read as 0,
    and since the empty payload sums to 0 its [valid_checksum] is true. *)
Lemma bad_hex_checksum_can_validate :
  snd (packet.feed packet.__init__ (bytes_of "$#zz"))
  = [ {| packet.type := packet.PACKET;
         packet.data := [];
         packet.checksum := 0;
         packet.raw := bytes_of "$#zz";
         packet.valid_checksum := true |} ].
Proof. reflexivity. Qed.

(** C6 (the code at the failing input): the packet read from [$#-1] has the
    checksum field -1, which is no byte. *)
Theorem signed_checksum_chars_give_negative_checksum :
  snd (packet.feed packet.__init__ (bytes_of "$#-1"))
  = [ {| packet.type := packet.PACKET;
         packet.data := [];
         packet.checksum := -1;
         packet.raw := bytes_of "$#-1";
         packet.valid_checksum := false |} ].
Proof. reflexivity. Qed.

Lemma all_bytes_complete (b : byte) : In b all_bytes.
Proof.
  assert (H : nth (Byte.to_nat b) all_bytes "000"%byte = b)
    by (destruct b; reflexivity).
  rewrite <- H. apply nth_In.
  pose proof (Byte.to_nat_bounded b) as B.
  change (List.length all_bytes) with 256%nat. lia.
Qed.

Lemma for_all_byte_pairs (P : byte -> byte -> bool) :
  forallb (fun c1 => forallb (P c1) all_bytes) all_bytes = true ->
  forall c1 c2, P c1 c2 = true.
Proof.
  intros H c1 c2.
  rewrite forallb_forall in H.
  specialize (H c1 (all_bytes_complete c1)).
  rewrite forallb_forall in H.
  exact (H c2 (all_bytes_complete c2)).
Qed.

(** X15: which pairs of checksum characters the conversion
    [int(chars, 16)] takes rather than rejects: two hexadecimal digits, or
    one digit with a blank or a sign before it, or a blank after it. *)
Lemma read_checksum_accepts (c1 c2 : byte) :
  returns (packet.read_checksum [c1; c2]) = accepted_checksum_chars c1 c2.
Proof.
  apply Bool.eqb_prop.
  apply (for_all_byte_pairs
           (fun c1 c2 => Bool.eqb (returns (packet.read_checksum [c1; c2]))
                           (accepted_checksum_chars c1 c2))).
  vm_compute. reflexivity.
Qed.

(** The checksum field is a byte unless the first checksum character is a
    minus sign. *)
Lemma checksum_is_byte_unless_minus (c1 c2 : byte) :
  c1 <> "-"%byte ->
  0 <= packet.parse_checksum [c1; c2] <= 255.
Proof.
  intros N.
  pose proof (for_all_byte_pairs
    (fun c1 c2 => Byte.eqb c1 "-"%byte
                  || ((0 <=? packet.parse_checksum [c1; c2])
                      && (packet.parse_checksum [c1; c2] <=? 255)))) as H.
  specialize (H ltac:(vm_compute; reflexivity) c1 c2). cbv beta in H.
  apply orb_true_iff in H as [H | H].
  - elim N. now apply Byte.byte_dec_bl.
  - apply andb_true_iff in H as [H1 H2]. lia.
Qed.

(** X14: every frame yielded from a fresh parser has a checksum field in
    0..255, unless its checksum characters begin with a minus sign. *)
Lemma fed_checksum_is_byte_unless_minus (B : list byte) (pkt : packet.Packet) :
  In pkt (snd (packet.feed packet.__init__ B)) ->
  (forall c2, checksum_chars_of pkt <> ["-"%byte; c2]) ->
  0 <= packet.checksum pkt <= 255.
Proof.
  intros HIn Hminus. pose proof (fed_frames_inv B pkt HIn) as F.
  assert (K : (packet.type pkt = packet.PACKET
               \/ packet.type pkt = packet.NOTIFICATION)
              \/ packet.checksum pkt = 0).
  { unfold frame_inv in F. destruct (packet.type pkt); auto;
      right; now destruct F as (_ & Z0 & _). }
  destruct K as [T | Z0]; [| lia].
  destruct (frame_checksum_chars pkt F T) as [Cs _].
  assert (Two : exists c1 c2, checksum_chars_of pkt = [c1; c2]).
  { unfold frame_inv, checksum_chars_of in *.
    destruct T as [T | T]; rewrite T in F;
      destruct F as (c1 & c2 & Raw & _); exists c1, c2;
      rewrite Raw; apply last_two_of_frame. }
  destruct Two as (c1 & c2 & Two). rewrite Cs, Two.
  apply checksum_is_byte_unless_minus.
  intros ->. exact (Hminus c2 Two).
Qed.

Lemma fed_checksum_is_byte_unless_minus_witness :
  0 <= packet.checksum
         {| packet.type := packet.PACKET; packet.data := bytes_of "g";
            packet.checksum := 7; packet.raw := bytes_of "$g#+7";
            packet.valid_checksum := false |} <= 255.
Proof.
  apply (fed_checksum_is_byte_unless_minus (bytes_of "$g#+7")).
  - left; reflexivity.
  - intros c2 H. vm_compute in H. discriminate H.
Defined.

(** ** The make of the frames *)

Lemma int_of_byte_plus (b : byte) :
  Py.int_of_byte b = constants.ACK -> b = "+"%byte.
Proof. the_byte b. Qed.

Lemma int_of_byte_minus (b : byte) :
  Py.int_of_byte b = constants.NACK -> b = "-"%byte.
Proof. the_byte b. Qed.

Lemma int_of_byte_interrupt (b : byte) :
  Py.int_of_byte b = constants.INTERRUPT -> b = Byte.x03.
Proof. the_byte b. Qed.

Lemma hash_eqb (b : byte) :
  (Py.int_of_byte b =? constants.PACKET_END) = false -> b <> "#"%byte.
Proof. intros H ->. vm_compute in H. discriminate H. Qed.

(** The payload buffer never holds the end mark, and what is yielded has
    the make of a frame. *)
Lemma process_byte_shape (self : packet.PacketParser) (b : byte) :
  parser_inv self -> ~ In "#"%byte (packet._buffer self) ->
  ~ In "#"%byte (packet._buffer (fst (packet._process_byte self b)))
  /\ (forall pkt, snd (packet._process_byte self b) = Some pkt ->
                  frame_shape pkt).
Proof.
  unfold parser_inv, packet._process_byte.
  destruct (packet._state self) eqn:St; intros Inv NH.
  - unfold packet._handle_idle.
    destruct (Py.int_of_byte b =? constants.ACK) eqn:E1.
    { apply Z.eqb_eq, int_of_byte_plus in E1; subst b.
      simpl; split; [exact NH | intros pkt [= <-]; reflexivity]. }
    destruct (Py.int_of_byte b =? constants.NACK) eqn:E2.
    { apply Z.eqb_eq, int_of_byte_minus in E2; subst b.
      simpl; split; [exact NH | intros pkt [= <-]; reflexivity]. }
    destruct (Py.int_of_byte b =? constants.INTERRUPT) eqn:E3.
    { apply Z.eqb_eq, int_of_byte_interrupt in E3; subst b.
      simpl; split; [exact NH | intros pkt [= <-]; reflexivity]. }
    destruct (Py.int_of_byte b =? constants.PACKET_START);
      [simpl; split; [tauto | discriminate] |].
    destruct (Py.int_of_byte b =? constants.NOTIFICATION_START);
      [simpl; split; [tauto | discriminate] |].
    simpl; split; [exact NH | discriminate].
  - unfold packet._handle_in_packet.
    destruct (Py.int_of_byte b =? constants.PACKET_END) eqn:E;
      simpl; (split; [| discriminate]); [exact NH |].
    rewrite in_app_iff. intros [H | [H | []]]; [now apply NH |].
    now apply (hash_eqb b E).
  - unfold packet._handle_checksum_1; simpl. split; [exact NH | discriminate].
  - destruct Inv as (c & Raw & Cs).
    unfold packet._handle_checksum_2; simpl. split; [exact NH |].
    intros pkt [= <-]. unfold frame_shape, delimiter in *; simpl.
    rewrite Raw.
    destruct (packet._is_notification self); simpl;
      (split; [exact NH | exists c, b; now rewrite <- app_assoc]).
Qed.

Lemma feed_shape (B : list byte) (self : packet.PacketParser) :
  parser_inv self -> ~ In "#"%byte (packet._buffer self) ->
  Forall frame_shape (snd (packet.feed self B)).
Proof.
  revert self; induction B as [|b B IH]; intros self Inv NH; simpl.
  - constructor.
  - destruct (process_byte_inv self b Inv) as [Inv1 _].
    destruct (process_byte_shape self b Inv NH) as [NH1 Sh].
    destruct (packet._process_byte self b) as [self1 o]; simpl in *.
    specialize (IH self1 Inv1 NH1).
    destruct (packet.feed self1 B) as [self2 ps]; simpl in *.
    destruct o as [pkt|]; [constructor; [now apply Sh | exact IH] | exact IH].
Qed.

(** X1: every frame that a fresh parser yields has the make of a frame: an
    acknowledgement, a negative one and an interrupt are the one byte that
    stands for them; the payload of a packet or notification holds no end
    mark, and its raw bytes are the delimiter, the payload, the end mark and
    two more bytes. *)
Theorem fed_frame_shape (B : list byte) (pkt : packet.Packet) :
  In pkt (snd (packet.feed packet.__init__ B)) -> frame_shape pkt.
Proof.
  intros H.
  pose proof (feed_shape B packet.__init__ parser_inv_init (fun F => F)) as F.
  rewrite Forall_forall in F. now apply F.
Qed.

Lemma fed_frame_shape_witness :
  frame_shape {| packet.type := packet.NOTIFICATION;
                 packet.data := bytes_of "Stop:";
                 packet.checksum := 0;
                 packet.raw := bytes_of "%Stop:#zz";
                 packet.valid_checksum := false |}.
Proof.
  apply (fed_frame_shape (bytes_of "+%Stop:#zz")). right; left; reflexivity.
Defined.


(** ** Feeding the frames again *)

Lemma feed_payload (payload : list byte) (self : packet.PacketParser) :
  packet._state self = packet.IN_PACKET ->
  ~ In "#"%byte payload ->
  packet.feed self payload
  = ({| packet._state := packet.IN_PACKET;
        packet._buffer := packet._buffer self ++ payload;
        packet._packet_start := packet._packet_start self;
        packet._checksum_chars := packet._checksum_chars self;
        packet._is_notification := packet._is_notification self;
        packet._raw_buffer := packet._raw_buffer self ++ payload |}, []).
Proof.
  revert self; induction payload as [|b l IH]; intros self St NH.
  - simpl. rewrite !app_nil_r. destruct self; simpl in *; now subst.
  - cbn [packet.feed]. unfold packet._process_byte. rewrite St.
    unfold packet._handle_in_packet.
    destruct (Py.int_of_byte b =? constants.PACKET_END) eqn:E.
    { apply Z.eqb_eq, int_of_byte_hash in E. subst b.
      exfalso; apply NH; now left. }
    rewrite IH; [| exact St | intros F; apply NH; now right].
    cbn [packet._buffer packet._raw_buffer packet._packet_start
         packet._checksum_chars packet._is_notification].
    now rewrite <- !app_assoc.
Qed.

Lemma feed_trailer (self : packet.PacketParser) (c1 c2 : byte) :
  packet._state self = packet.IN_PACKET ->
  packet.feed self ["#"%byte; c1; c2]
  = ({| packet._state := packet.IDLE; packet._buffer := packet._buffer self;
        packet._packet_start := packet._packet_start self;
        packet._checksum_chars := [c1; c2];
        packet._is_notification := packet._is_notification self;
        packet._raw_buffer := packet._raw_buffer self ++ ["#"%byte; c1; c2] |},
     [{| packet.type :=
           if packet._is_notification self
           then packet.NOTIFICATION else packet.PACKET;
         packet.data := packet._buffer self;
         packet.checksum := packet.parse_checksum [c1; c2];
         packet.raw := packet._raw_buffer self ++ ["#"%byte; c1; c2];
         packet.valid_checksum :=
           packet.compute_checksum (packet._buffer self)
           =? packet.parse_checksum [c1; c2] |}]).
Proof.
  intros St. cbn [packet.feed]. unfold packet._process_byte at 1.
  rewrite St. unfold packet._handle_in_packet.
  change (Py.int_of_byte "#"%byte =? constants.PACKET_END) with true.
  cbv iota. unfold packet._process_byte. cbn [packet._state].
  unfold packet._handle_checksum_1. cbn [packet._state].
  unfold packet._handle_checksum_2.
  cbn [packet._buffer packet._raw_buffer packet._packet_start
       packet._checksum_chars packet._is_notification app].
  now rewrite <- !app_assoc.
Qed.

Lemma feed_framed (self : packet.PacketParser) (d : byte) (notif : bool)
  (payload : list byte) (c1 c2 : byte) :
  packet._state self = packet.IDLE ->
  (d = "$"%byte /\ notif = false) \/ (d = "%"%byte /\ notif = true) ->
  ~ In "#"%byte payload ->
  exists self',
    packet._state self' = packet.IDLE
    /\ packet.feed self (d :: payload ++ ["#"%byte; c1; c2])
       = (self',
          [{| packet.type :=
                if notif then packet.NOTIFICATION else packet.PACKET;
              packet.data := payload;
              packet.checksum := packet.parse_checksum [c1; c2];
              packet.raw := d :: payload ++ ["#"%byte; c1; c2];
              packet.valid_checksum :=
                packet.compute_checksum payload
                =? packet.parse_checksum [c1; c2] |}]).
Proof.
  intros St D NH.
  change (d :: payload ++ ["#"%byte; c1; c2])
    with ([d] ++ payload ++ ["#"%byte; c1; c2]).
  rewrite feed_app.
  assert (E : packet.feed self [d]
              = ({| packet._state := packet.IN_PACKET; packet._buffer := [];
                    packet._packet_start := packet._packet_start self;
                    packet._checksum_chars := packet._checksum_chars self;
                    packet._is_notification := notif;
                    packet._raw_buffer := [d] |}, [])).
  { cbn [packet.feed]. unfold packet._process_byte. rewrite St.
    destruct D as [[-> ->] | [-> ->]]; reflexivity. }
  rewrite E; clear E.
  rewrite feed_app, feed_payload; [| reflexivity | exact NH].
  rewrite feed_trailer by reflexivity.
  cbn [packet._buffer packet._raw_buffer packet._packet_start
       packet._checksum_chars packet._is_notification app].
  eexists; split; [| reflexivity]. reflexivity.
Qed.

Lemma refeed_frame (self : packet.PacketParser) (pkt : packet.Packet) :
  packet._state self = packet.IDLE ->
  frame_inv pkt -> frame_shape pkt ->
  exists self',
    packet._state self' = packet.IDLE
    /\ packet.feed self (packet.raw pkt) = (self', [pkt]).
Proof.
  intros St FI FS. unfold frame_inv, frame_shape in *.
  destruct pkt as [t d c r v]; cbn [packet.type packet.data packet.checksum
    packet.raw packet.valid_checksum] in *.
  destruct t.
  - injection FS as -> -> -> ->. exists self; split; [exact St |].
    cbn [packet.feed]. unfold packet._process_byte. now rewrite St.
  - injection FS as -> -> -> ->. exists self; split; [exact St |].
    cbn [packet.feed]. unfold packet._process_byte. now rewrite St.
  - injection FS as -> -> -> ->. exists self; split; [exact St |].
    cbn [packet.feed]. unfold packet._process_byte. now rewrite St.
  - destruct FS as [NH _]. destruct FI as (c1 & c2 & -> & -> & ->).
    destruct (feed_framed self "$"%byte false d c1 c2 St
                (or_introl (conj eq_refl eq_refl)) NH) as (s' & St' & E).
    exists s'; split; [exact St' | exact E].
  - destruct FS as [NH _]. destruct FI as (c1 & c2 & -> & -> & ->).
    destruct (feed_framed self "%"%byte true d c1 c2 St
                (or_intror (conj eq_refl eq_refl)) NH) as (s' & St' & E).
    exists s'; split; [exact St' | exact E].
Qed.

Lemma refeed_frames (pkts : list packet.Packet) (self : packet.PacketParser) :
  packet._state self = packet.IDLE ->
  Forall frame_inv pkts -> Forall frame_shape pkts ->
  snd (packet.feed self (List.concat (map packet.raw pkts))) = pkts.
Proof.
  revert self; induction pkts as [|pkt pkts IH]; intros self St FI FS.
  - reflexivity.
  - inversion FI as [|? ? FI1 FI2]; inversion FS as [|? ? FS1 FS2]; subst.
    cbn [map List.concat]. rewrite feed_app.
    destruct (refeed_frame self pkt St FI1 FS1) as (s' & St' & E).
    rewrite E. specialize (IH s' St' FI2 FS2).
    destruct (packet.feed s' (List.concat (map packet.raw pkts))); simpl in *.
    now subst.
Qed.

(** X2: the raw bytes of the frames that a fresh parser yields, put end to
    end and fed to a fresh parser, give the same frames again, field by
    field. *)
Theorem raw_bytes_feed_back (B : list byte) :
  let pkts := snd (packet.feed packet.__init__ B) in
  snd (packet.feed packet.__init__ (List.concat (map packet.raw pkts)))
  = pkts.
Proof.
  intros pkts. apply refeed_frames.
  - reflexivity.
  - apply (feed_inv B packet.__init__ parser_inv_init).
  - apply (feed_shape B packet.__init__ parser_inv_init (fun F => F)).
Qed.

(** ** Bytes between the frames *)

Lemma idle_skips (self : packet.PacketParser) (b : byte) :
  packet._state self = packet.IDLE -> is_control b = false ->
  packet._process_byte self b = (self, None).
Proof.
  intros St C. unfold packet._process_byte, packet._handle_idle.
  rewrite St. unfold is_control in C. cbv zeta in C.
  repeat (apply orb_false_elim in C; destruct C as [C ?]).
  now repeat match goal with H : _ = false |- _ => rewrite H; clear H end.
Qed.

(** X3: an idle parser drops the bytes that are none of the five it acts
    upon: with such bytes before an input, the parser left behind and the
    frames are those of the input alone. *)
Theorem idle_ignores_other_bytes (self : packet.PacketParser)
  (junk B : list byte) :
  packet._state self = packet.IDLE ->
  forallb (fun b => negb (is_control b)) junk = true ->
  packet.feed self (junk ++ B) = packet.feed self B.
Proof.
  intros St J. induction junk as [|b junk IH]; [reflexivity |].
  cbn [forallb] in J. apply andb_prop in J as [J1 J2].
  apply negb_true_iff in J1.
  cbn [app packet.feed]. rewrite (idle_skips self b St J1).
  rewrite (IH J2). now destruct (packet.feed self B).
Qed.

Lemma idle_ignores_other_bytes_witness :
  packet.feed packet.__init__ (bytes_of "#7f}" ++ bytes_of "$g#67")
  = packet.feed packet.__init__ (bytes_of "$g#67").
Proof.
  apply (idle_ignores_other_bytes packet.__init__ (bytes_of "#7f}")
           (bytes_of "$g#67")); reflexivity.
Defined.


(** ** The parser's past *)

Lemma process_byte_alike (p q : packet.PacketParser) (b : byte) :
  alike p q ->
  alike (fst (packet._process_byte p b)) (fst (packet._process_byte q b))
  /\ snd (packet._process_byte p b) = snd (packet._process_byte q b).
Proof.
  unfold alike, packet._process_byte. intros [St A]. rewrite <- St.
  destruct (packet._state p) eqn:Sp.
  - unfold packet._handle_idle.
    repeat match goal with
           | |- context [if ?c then _ else _] => destruct c
           end; cbn; rewrite ?Sp, <- ?St; auto.
  - destruct A as (A1 & A2 & A3). unfold packet._handle_in_packet.
    rewrite <- A1, <- A2, <- A3, <- St.
    destruct (Py.int_of_byte b =? constants.PACKET_END); cbn;
      rewrite ?Sp; repeat split; reflexivity.
  - destruct A as (A1 & A2 & A3 & A4). unfold packet._handle_checksum_1.
    rewrite <- A1, <- A2, <- A3, <- A4. cbn. repeat split; reflexivity.
  - destruct A as (A1 & A2 & A3 & A4). unfold packet._handle_checksum_2.
    rewrite <- A1, <- A2, <- A3, <- A4. cbn. repeat split; reflexivity.
Qed.

Lemma feed_alike (B : list byte) (p q : packet.PacketParser) :
  alike p q -> snd (packet.feed p B) = snd (packet.feed q B).
Proof.
  revert p q; induction B as [|b B IH]; intros p q A; [reflexivity |].
  cbn [packet.feed].
  destruct (process_byte_alike p q b A) as [A1 E].
  destruct (packet._process_byte p b) as [p1 o].
  destruct (packet._process_byte q b) as [q1 o']. cbn in A1, E. subst o'.
  specialize (IH p1 q1 A1).
  destruct (packet.feed p1 B), (packet.feed q1 B). cbn in *. now subst.
Qed.

(** X4: after [reset] a parser yields, on every input, the frames that a
    new parser yields, whatever it was reading before. *)
Theorem reset_reads_as_new (self : packet.PacketParser) (B : list byte) :
  snd (packet.feed (packet.reset self) B)
  = snd (packet.feed packet.__init__ B).
Proof. apply feed_alike. split; [reflexivity | exact I]. Qed.

(** X5: when an input leaves the parser idle, the frames of that input
    followed by another one are the frames of the first and then the frames
    that a new parser yields on the second. *)
Theorem idle_parser_reads_as_new (B0 B : list byte) :
  packet._state (fst (packet.feed packet.__init__ B0)) = packet.IDLE ->
  snd (packet.feed packet.__init__ (B0 ++ B))
  = snd (packet.feed packet.__init__ B0)
    ++ snd (packet.feed packet.__init__ B).
Proof.
  intros St. rewrite feed_app.
  destruct (packet.feed packet.__init__ B0) as [p ps] eqn:E. cbn in St.
  assert (A : alike p packet.__init__) by (split; [exact St | now rewrite St]).
  apply (feed_alike B) in A.
  destruct (packet.feed p B), (packet.feed packet.__init__ B). cbn in *.
  now subst.
Qed.

(** ** No byte is lost *)

Lemma process_byte_accounts (self : packet.PacketParser) (b : byte) :
  parser_inv self ->
  pending self ++ (if ignored self b then [] else [b])
  = match snd (packet._process_byte self b) with
    | Some pkt => packet.raw pkt
    | None => []
    end ++ pending (fst (packet._process_byte self b)).
Proof.
  unfold parser_inv, pending, ignored, packet._process_byte.
  destruct (packet._state self) eqn:St; intros Inv.
  - unfold packet._handle_idle, is_control. cbv zeta.
    destruct (Py.int_of_byte b =? constants.ACK); [cbn; now rewrite St |].
    destruct (Py.int_of_byte b =? constants.NACK); [cbn; now rewrite St |].
    destruct (Py.int_of_byte b =? constants.INTERRUPT);
      [cbn; now rewrite St |].
    destruct (Py.int_of_byte b =? constants.PACKET_START); [reflexivity |].
    destruct (Py.int_of_byte b =? constants.NOTIFICATION_START);
      [reflexivity |].
    cbn. now rewrite St.
  - unfold packet._handle_in_packet.
    destruct (Py.int_of_byte b =? constants.PACKET_END); cbn;
      rewrite ?St; reflexivity.
  - reflexivity.
  - cbn. now rewrite app_nil_r.
Qed.

Lemma feed_accounts (B : list byte) (self : packet.PacketParser) :
  parser_inv self ->
  pending self ++ accounted self B
  = List.concat (map packet.raw (snd (packet.feed self B)))
    ++ pending (fst (packet.feed self B)).
Proof.
  revert self; induction B as [|b B IH]; intros self Inv.
  - cbn. now rewrite app_nil_r.
  - cbn [accounted packet.feed].
    pose proof (process_byte_accounts self b Inv) as E.
    destruct (process_byte_inv self b Inv) as [Inv1 _].
    destruct (packet._process_byte self b) as [self1 o]. cbn [fst snd] in *.
    specialize (IH self1 Inv1).
    destruct (packet.feed self1 B) as [self2 ps]. cbn [fst snd] in *.
    rewrite app_assoc, E, <- app_assoc, IH.
    destruct o as [pkt|]; cbn [map List.concat];
      now rewrite ?app_assoc.
Qed.

(** X6: no byte is lost but those dropped between frames: the raw bytes of
    the frames, in order, followed by the bytes of the frame being read, are
    the input less the bytes that open no frame and were read while idle. *)
Theorem no_byte_is_lost (B : list byte) :
  let '(self, pkts) := packet.feed packet.__init__ B in
  accounted packet.__init__ B
  = List.concat (map packet.raw pkts) ++ pending self.
Proof.
  pose proof (feed_accounts B packet.__init__ parser_inv_init) as E.
  destruct (packet.feed packet.__init__ B) as [self pkts]. exact E.
Qed.

(** ** Two hexadecimal digits *)

Lemma compute_checksum_mod (payload : list byte) :
  packet.compute_checksum payload = Py.sum payload mod 256.
Proof.
  unfold packet.compute_checksum.
  change 0xFF with (Z.ones 8). now rewrite Z.land_ones by lia.
Qed.

Lemma parse_checksum_hex (c1 c2 : byte) :
  hex_byte c1 = true -> hex_byte c2 = true ->
  packet.parse_checksum [c1; c2] = 16 * hex_digit_of c1 + hex_digit_of c2.
Proof.
  intros H1 H2.
  pose proof (for_all_byte_pairs
    (fun c1 c2 => negb (hex_byte c1 && hex_byte c2)
                  || (packet.parse_checksum [c1; c2]
                      =? 16 * hex_digit_of c1 + hex_digit_of c2))) as P.
  specialize (P ltac:(vm_compute; reflexivity) c1 c2). cbv beta in P.
  rewrite H1, H2 in P. cbn in P. now apply Z.eqb_eq.
Qed.

(** X7: when the two checksum characters of a yielded packet or notification
    are hexadecimal digits, the checksum field is the byte they write, and
    [valid_checksum] tells whether the payload's byte sum modulo 256 is that
    byte. *)
Theorem hex_checksum_is_checked (B : list byte) (pkt : packet.Packet)
  (c1 c2 : byte) :
  In pkt (snd (packet.feed packet.__init__ B)) ->
  packet.type pkt = packet.PACKET \/ packet.type pkt = packet.NOTIFICATION ->
  checksum_chars_of pkt = [c1; c2] ->
  hex_byte c1 = true -> hex_byte c2 = true ->
  packet.checksum pkt = 16 * hex_digit_of c1 + hex_digit_of c2
  /\ packet.valid_checksum pkt
     = (Py.sum (packet.data pkt) mod 256 =? packet.checksum pkt).
Proof.
  intros HIn T Cs H1 H2.
  destruct (frame_checksum_chars pkt (fed_frames_inv B pkt HIn) T) as [C V].
  rewrite Cs in C. rewrite V, compute_checksum_mod, C.
  split; [now apply parse_checksum_hex | reflexivity].
Qed.

Lemma hex_checksum_is_checked_witness :
  let pkt := {| packet.type := packet.PACKET; packet.data := bytes_of "g";
                packet.checksum := 103; packet.raw := bytes_of "$g#67";
                packet.valid_checksum := true |} in
  packet.checksum pkt = 16 * hex_digit_of "6"%byte + hex_digit_of "7"%byte
  /\ packet.valid_checksum pkt
     = (Py.sum (packet.data pkt) mod 256 =? packet.checksum pkt).
Proof.
  intros pkt.
  apply (hex_checksum_is_checked (bytes_of "$g#67") pkt "6"%byte "7"%byte).
  - left; reflexivity.
  - left; reflexivity.
  - reflexivity.
  - reflexivity.
  - reflexivity.
Defined.

Lemma idle_parser_reads_as_new_witness :
  snd (packet.feed packet.__init__ (bytes_of "$g#67" ++ bytes_of "+$m#6d"))
  = snd (packet.feed packet.__init__ (bytes_of "$g#67"))
    ++ snd (packet.feed packet.__init__ (bytes_of "+$m#6d")).
Proof.
  apply (idle_parser_reads_as_new (bytes_of "$g#67") (bytes_of "+$m#6d")).
  reflexivity.
Defined.

(** * Properties of the dissector *)


(** C2 (the code at the failing input): a packet frame with an empty
    payload dissected as a response gives "Empty packet", the label of the
    empty command; the text "Empty response (command not supported)" of
    [_dissect_response] is never reached. *)
Theorem empty_response_is_empty_packet (self : dissector.Dissector)
  (checksum : Z) (raw : list byte) (valid : bool) :
  dissector.dissect self (packet_frame [] checksum raw valid) true
  = (self, Py.Return (Py.lit "Empty packet")).
Proof. reflexivity. Qed.

(** C1 (the code at the failing input): dissecting a packet frame with
    payload [T] as a response raises [ValueError]: [_dissect_stop_reply]
    applies [int(..., 16)] to the empty string outside any [try]. *)
Theorem stop_reply_without_signal_raises (self : dissector.Dissector)
  (checksum : Z) (raw : list byte) (valid : bool) :
  dissector.dissect self (packet_frame (bytes_of "T") checksum raw valid) true
  = (self, Py.Raise Py.ValueError).
Proof. reflexivity. Qed.

(** The same happens on [Szz], and on a [vFile:pread] whose count is no
    number; in the second case the command has been memorized by then. *)
Lemma stop_reply_Szz_raises (self : dissector.Dissector)
  (checksum : Z) (raw : list byte) (valid : bool) :
  dissector.dissect self (packet_frame (bytes_of "Szz") checksum raw valid) true
  = (self, Py.Raise Py.ValueError).
Proof. reflexivity. Qed.

Lemma vfile_pread_bad_count_raises (self : dissector.Dissector)
  (checksum : Z) (raw : list byte) (valid : bool) :
  dissector.dissect self
    (packet_frame (bytes_of "vFile:pread:3,zz,0") checksum raw valid) false
  = (after_command "vFile:pread:3,zz,0", Py.Raise Py.ValueError).
Proof. reflexivity. Qed.

(** The dissector that [dissect] leaves behind. *)
Lemma dissect_memory (self : dissector.Dissector) (pkt : packet.Packet)
  (is_response : bool) :
  fst (dissector.dissect self pkt is_response)
  = match packet.type pkt, packet.data pkt, is_response with
    | packet.PACKET, _ :: _, false => after_command (packet.data_str pkt)
    | _, _, _ => self
    end.
Proof.
  unfold dissector.dissect.
  destruct (packet.type pkt); try reflexivity.
  unfold packet.data_str, Py.decode_latin1.
  destruct (packet.data pkt) as [|b bs]; [reflexivity|].
  simpl. destruct is_response; reflexivity.
Qed.

(** C10: whatever [is_response] is, dissecting an Ack, Nack, Interrupt or
    Notification frame, or a packet frame with an empty payload, leaves the
    dissector as it was; a packet frame with a non-empty payload leaves it
    as it was when dissected as a response, and memorizes the payload when
    dissected as a command. *)
Theorem memory_written_by_nonempty_commands_only
  (self : dissector.Dissector) (pkt : packet.Packet) (is_response : bool) :
  fst (dissector.dissect self pkt is_response)
  = match packet.type pkt, packet.data pkt, is_response with
    | packet.PACKET, _ :: _, false => after_command (packet.data_str pkt)
    | _, _, _ => self
    end.
Proof. apply dissect_memory. Qed.

Lemma response_keeps_memory (self : dissector.Dissector) (pkt : packet.Packet) :
  fst (dissector.dissect self pkt true) = self.
Proof.
  rewrite dissect_memory.
  destruct (packet.type pkt), (packet.data pkt); reflexivity.
Qed.

Lemma responses_keep_memory (pkts : list packet.Packet)
  (self : dissector.Dissector) :
  dissect_responses self pkts = self.
Proof.
  revert self; induction pkts as [|p pkts IH]; intros self; simpl;
    [reflexivity |].
  unfold dissect_responses in *; simpl.
  now rewrite response_keeps_memory.
Qed.

(** C8: dissecting a frame as a response leaves the memorized command as
    it was; hence dissecting the same frame as a response again, after any
    number of other frames dissected as responses, gives the same result. *)
Theorem responses_never_write_memory (self : dissector.Dissector)
  (pkt : packet.Packet) (between : list packet.Packet) :
  fst (dissector.dissect self pkt true) = self
  /\ snd (dissector.dissect
            (dissect_responses (fst (dissector.dissect self pkt true)) between)
            pkt true)
     = snd (dissector.dissect self pkt true).
Proof.
  split; [apply response_keeps_memory |].
  now rewrite responses_keep_memory, response_keeps_memory.
Qed.

Lemma first_char_eqb (c : ascii) (r : string) (x : ascii) :
  String.eqb (Py.slice_to 1 (String c r)) (String x EmptyString)
  = Ascii.eqb c x.
Proof. simpl. apply andb_true_r. Qed.

(** The cases of the memorized command: none, an empty one, or one whose
    first character is [g], [m] or [x], [p], or something else. *)
Ltac by_last_command self :=
  let c := fresh "c" in
  let r := fresh "r" in
  destruct (dissector._last_command self) as [[|c r]|];
  [ | unfold Py.truthy; cbn [String.eqb negb];
      rewrite !first_char_eqb;
      destruct (Ascii.eqb c "g");
      [| destruct (Ascii.eqb c "m" || Ascii.eqb c "x");
         [| destruct (Ascii.eqb c "p")]] | ].

Lemma dissect_hex_data_label (self : dissector.Dissector) (data : string) :
  dissector._dissect_hex_data self data
  = Py.Return (Py.lit (context_label self) ++ Py.lit ": " ++ hex_rendering data).
Proof.
  unfold dissector._dissect_hex_data, context_label, hex_rendering.
  by_last_command self; destruct (Py.len data / 2 <=? 16); reflexivity.
Qed.

Lemma dissect_rle_hex_data_label (self : dissector.Dissector) (data : string) :
  dissector._dissect_rle_hex_data self data
  = Py.Return (Py.lit (context_label self) ++ Py.lit ": "
               ++ Py.str_int (dissector.rle_decoded_len data 0 / 2)
               ++ Py.lit " bytes").
Proof.
  unfold dissector._dissect_rle_hex_data, context_label.
  by_last_command self; reflexivity.
Qed.

Lemma char_in_cons_false (c x : ascii) (s : string) :
  Py.char_in c (String x s) = false -> c <> x /\ Py.char_in c s = false.
Proof.
  simpl. intros H. apply orb_false_iff in H as [H1 H2].
  split; [now apply Ascii.eqb_neq | exact H2].
Qed.

Lemma prefix_other (x c : ascii) (p t : string) :
  c <> x -> Py.startswith (String c t) (String x p) = false.
Proof.
  intros N. unfold Py.startswith. simpl.
  destruct (ascii_dec x c); [now subst | reflexivity].
Qed.

Lemma eqb_other (x c : ascii) (p t : string) :
  c <> x -> String.eqb (String c t) (String x p) = false.
Proof. intros N. simpl. now apply Ascii.eqb_neq in N as ->. Qed.

Lemma truthy_cons (c : ascii) (t : string) : Py.truthy (String c t) = true.
Proof. reflexivity. Qed.

Lemma eqb_cons_empty (c : ascii) (t : string) :
  String.eqb (String c t) EmptyString = false.
Proof. reflexivity. Qed.

Lemma response_dispatch_plain (self : dissector.Dissector) (c : ascii)
  (t : string) :
  Py.char_in c LEADERS = false ->
  dissector._dissect_response self (String c t)
  = let data := String c t in
    if all_hex data then dissector._dissect_hex_data self data
    else if dissector._is_rle_hex_data data
         then dissector._dissect_rle_hex_data self data
    else if dissector._is_key_value_data data
         then dissector._dissect_key_value data
    else Py.Return (Py.lit "Response: " ++ Py.lit data).
Proof.
  intros H. unfold LEADERS in H.
  repeat (apply char_in_cons_false in H as [? H]).
  unfold dissector._dissect_response.
  rewrite truthy_cons, eqb_cons_empty. cbn [negb].
  rewrite !eqb_other by assumption.
  rewrite !prefix_other by assumption.
  cbn [andb].
  rewrite !first_char_eqb.
  repeat match goal with
         | N : c <> ?x |- context [Ascii.eqb c ?x] =>
             rewrite (proj2 (Ascii.eqb_neq c x) N)
         end.
  reflexivity.
Qed.

(** A fact about one character, by running through the characters. *)
Ltac each_char c :=
  destruct c as [[] [] [] [] [] [] [] []]; vm_compute; intros; congruence.

Lemma blob_leader (c : ascii) :
  Py.char_in c dissector.HEXDIGITS || Ascii.eqb c "*" = true ->
  Py.char_in c "EFb" = false ->
  Py.char_in c LEADERS = false.
Proof. each_char c. Qed.

Lemma rle_not_all_hex (data : string) :
  dissector._is_rle_hex_data data = true -> all_hex data = false.
Proof.
  unfold dissector._is_rle_hex_data, all_hex.
  destruct (Py.char_in "*" data) eqn:Star; [intros _ | discriminate].
  induction data as [|c t IH]; [discriminate Star |].
  cbn [Py.char_in Py.all_chars] in *.
  destruct (Ascii.eqb_spec "*"%char c) as [<- | N].
  - reflexivity.
  - cbn [orb] in Star. rewrite (IH Star). apply andb_false_r.
Qed.

Lemma blob_first_char (c : ascii) (t : string) :
  all_hex (String c t) = true \/ dissector._is_rle_hex_data (String c t) = true ->
  Py.char_in c dissector.HEXDIGITS || Ascii.eqb c "*" = true.
Proof.
  intros [H | H].
  - unfold all_hex in H. cbn [Py.all_chars] in H.
    apply andb_true_iff in H as [H _]. now rewrite H.
  - unfold dissector._is_rle_hex_data in H.
    destruct (Py.char_in "*" (String c t)); [| discriminate H].
    cbn [negb dissector.rle_shape] in H.
    destruct (Py.char_in c dissector.HEXDIGITS); [reflexivity |].
    destruct (Ascii.eqb c "*"); [reflexivity |].
    cbn [andb] in H. discriminate H.
Qed.

(** C7 (as corrected): a response payload that is all hexadecimal digits or
    has the RLE shape, and does not begin with [E], [F] or [b], is labelled
    by the first byte of the memorized command ([context_label]); the label
    is followed by the byte count and the word bytes for an RLE payload and
    for a hex payload of more than 16 bytes, and by the payload itself in
    groups of two characters for a shorter hex payload. *)
Theorem blob_label_selected_by_command (self : dissector.Dissector)
  (pkt : packet.Packet) :
  packet.type pkt = packet.PACKET ->
  packet.data pkt <> [] ->
  first_in "EFb" (packet.data_str pkt) = false ->
  all_hex (packet.data_str pkt) = true
  \/ dissector._is_rle_hex_data (packet.data_str pkt) = true ->
  snd (dissector.dissect self pkt true)
  = Py.Return
      (Py.lit (context_label self) ++ Py.lit ": "
       ++ (if all_hex (packet.data_str pkt)
           then hex_rendering (packet.data_str pkt)
           else Py.str_int
                  (dissector.rle_decoded_len (packet.data_str pkt) 0 / 2)
                ++ Py.lit " bytes")).
Proof.
  intros T NE.
  unfold dissector.dissect. rewrite T.
  unfold packet.data_str, Py.decode_latin1.
  destruct (packet.data pkt) as [|b bs]; [now elim NE |].
  change (string_of_list_byte (b :: bs))
    with (String (ascii_of_byte b) (string_of_list_byte bs)).
  set (c := ascii_of_byte b). set (t := string_of_list_byte bs).
  intros F B. rewrite truthy_cons. cbn [negb snd].
  rewrite response_dispatch_plain
    by (apply blob_leader; [now apply (blob_first_char c t) | exact F]).
  cbv zeta.
  destruct (all_hex (String c t)) eqn:H.
  - apply dissect_hex_data_label.
  - destruct B as [B | B]; [discriminate B |].
    rewrite B. apply dissect_rle_hex_data_label.
Qed.

(** The RLE scenario after a [g] command: "Registers: 10 bytes". *)
Lemma blob_label_selected_by_command_witness :
  snd (dissector.dissect (after_command "g")
         (packet_frame (bytes_of rle_example) 0 [] true) true)
  = Py.Return (Py.lit "Registers: 10 bytes").
Proof.
  apply (blob_label_selected_by_command (after_command "g")
           (packet_frame (bytes_of rle_example) 0 [] true)).
  - reflexivity.
  - discriminate.
  - reflexivity.
  - right. reflexivity.
Defined.

(** C7 (counterexample): after a [g] command the hex payload [00000000]
    gives "Registers: 00 00 00 00", which is "Registers: <n> bytes" for no
    [n]. *)
Lemma short_hex_blob_is_spelled_out :
  snd (dissector.dissect (after_command "g")
         (packet_frame (bytes_of "00000000") 0 [] true) true)
  = Py.Return (Py.lit "Registers: 00 00 00 00")
  /\ forall n : Z,
       Py.lit "Registers: 00 00 00 00"
       <> Py.lit "Registers: " ++ Py.str_int n ++ Py.lit " bytes".
Proof.
  split; [reflexivity |].
  intros n H.
  apply (f_equal (fun t => last t 0%N)) in H.
  change (Py.lit " bytes") with (Py.lit " byte" ++ [115%N]) in H.
  rewrite !app_assoc, last_last in H.
  discriminate H.
Qed.

(** ** Where a response can raise *)

Lemma returns_except {A : Type} (body handler : Py.result A) :
  returns handler = true -> returns (Py.except_ValueError body handler) = true.
Proof.
  intros H. destruct body as [a | e]; [reflexivity |].
  simpl. now destruct e.
Qed.

Lemma returns_bind {A B : Type} (c : Py.result A) (k : A -> Py.result B) :
  returns c = true -> (forall a, returns (k a) = true) ->
  returns (Py.bind c k) = true.
Proof. intros Hc Hk. destruct c as [a | e]; [apply Hk | discriminate Hc]. Qed.

Lemma split1_present (sep : ascii) (s : string) :
  Py.char_in sep s = true -> exists a b, Py.split1 sep s = [a; b].
Proof.
  induction s as [|c t IH]; [discriminate |].
  cbn [Py.char_in Py.split1]. rewrite (Ascii.eqb_sym sep c).
  destruct (Ascii.eqb c sep); [intros _; eauto |].
  cbn [orb]. intros H. destruct (IH H) as (a & b & E). rewrite E. eauto.
Qed.

Lemma returns_unpack_split1 (sep : ascii) (s : string) :
  Py.char_in sep s = true -> returns (Py.unpack2 (Py.split1 sep s)) = true.
Proof.
  intros H. destruct (split1_present sep s H) as (a & b & E).
  now rewrite E.
Qed.

Lemma returns_for_each {A B : Type} (body : A -> Py.result B) (xs : list A) :
  (forall x, returns (body x) = true) ->
  returns (dissector.for_each body xs) = true.
Proof.
  intros H. induction xs as [|x xs IH]; [reflexivity |].
  cbn [dissector.for_each].
  apply returns_bind; [apply H |]. intros y.
  apply returns_bind; [exact IH |]. reflexivity.
Qed.

Lemma returns_hex_name (h : string) : returns (dissector.hex_name h) = true.
Proof. apply returns_except. reflexivity. Qed.

(** The branches of a handler, each one ending in a [return]. *)
Ltac returns_if :=
  repeat match goal with
         | |- returns (if ?b then _ else _) = true => destruct b
         | |- returns (match ?o with Some _ => _ | None => _ end) = true =>
             destruct o
         | |- returns (Py.Return _) = true => reflexivity
         | |- returns (Py.except_ValueError _ _) = true => apply returns_except
         end.

Lemma returns_error (data : string) :
  returns (dissector._dissect_error data) = true.
Proof. unfold dissector._dissect_error. returns_if. Qed.

Lemma returns_exit_reply (data : string) :
  returns (dissector._dissect_exit_reply data) = true.
Proof. unfold dissector._dissect_exit_reply. returns_if. Qed.

Lemma returns_terminate_reply (data : string) :
  returns (dissector._dissect_terminate_reply data) = true.
Proof. unfold dissector._dissect_terminate_reply. returns_if. Qed.

Lemma returns_console_output (data : string) :
  returns (dissector._dissect_console_output data) = true.
Proof. unfold dissector._dissect_console_output. returns_if. Qed.

Lemma returns_file_io_response (data : string) :
  returns (dissector._dissect_file_io_response data) = true.
Proof.
  unfold dissector._dissect_file_io_response.
  destruct (Py.startswith data "F-1"); [returns_if |].
  destruct (Py.startswith data "F"); [| reflexivity].
  apply returns_bind.
  - destruct (Py.char_in ";" (Py.slice_from 1 data)) eqn:E; [| reflexivity].
    apply returns_bind; [now apply returns_unpack_split1 | reflexivity].
  - intros a. returns_if.
Qed.

Lemma returns_qxfer_response (data : string) (final : bool) :
  returns (dissector._dissect_qxfer_response data final) = true.
Proof. unfold dissector._dissect_qxfer_response. returns_if. Qed.

Lemma returns_thread_id_response (data : string) :
  returns (dissector._dissect_thread_id_response data) = true.
Proof. unfold dissector._dissect_thread_id_response. returns_if. Qed.

Lemma returns_vcont_response (data : string) :
  returns (dissector._dissect_vcont_response data) = true.
Proof. unfold dissector._dissect_vcont_response. returns_if. Qed.

Lemma returns_key_value (data : string) :
  returns (dissector._dissect_key_value data) = true.
Proof.
  unfold dissector._dissect_key_value.
  apply returns_bind; [| reflexivity].
  apply returns_for_each. intros item. unfold dissector.key_value_pair.
  destruct (Py.char_in ":" item) eqn:E; [| returns_if].
  apply returns_bind; [now apply returns_unpack_split1 | reflexivity].
Qed.

Lemma returns_stop_reply_item (st : dissector.details) (item : string) :
  returns (dissector.stop_reply_item st item) = true.
Proof.
  unfold dissector.stop_reply_item.
  destruct (negb (Py.truthy item)); [reflexivity |].
  destruct (negb (Py.char_in ":" item)) eqn:E; [reflexivity |].
  apply negb_false_iff in E.
  apply returns_bind; [now apply returns_unpack_split1 |].
  intros kv.
  repeat match goal with
         | |- returns (if ?b then _ else _) = true => destruct b
         | |- returns (Py.Return _) = true => reflexivity
         end.
  apply returns_bind; [apply returns_hex_name | reflexivity].
Qed.

Lemma returns_stop_reply_items (items : list string) (st : dissector.details) :
  returns (dissector.stop_reply_items st items) = true.
Proof.
  revert st; induction items as [|item items IH]; intros st; [reflexivity |].
  cbn [dissector.stop_reply_items].
  destruct (dissector.stop_reply_item st item) as [st' | e] eqn:E.
  - apply IH.
  - pose proof (returns_stop_reply_item st item) as R.
    rewrite E in R. discriminate R.
Qed.

Lemma returns_parse_stop_reply_details (extra : string) :
  returns (dissector._parse_stop_reply_details extra) = true.
Proof.
  unfold dissector._parse_stop_reply_details.
  apply returns_bind; [apply returns_stop_reply_items | reflexivity].
Qed.

(** A stop reply returns exactly when its two signal characters are
    taken by [int(..., 16)]. *)
Lemma returns_stop_reply (data : string) :
  first_in "ST" data = true ->
  returns (dissector._dissect_stop_reply data)
  = returns (Py.int16 (Py.slice 1 3 data)).
Proof.
  destruct data as [|c t]; [discriminate |].
  unfold first_in, dissector._dissect_stop_reply.
  rewrite !first_char_eqb. cbn [Py.char_in].
  intros H.
  destruct (Ascii.eqb c "S") eqn:ES.
  - destruct (Py.int16 (Py.slice 1 3 (String c t))); reflexivity.
  - destruct (Ascii.eqb c "T") eqn:ET; [| discriminate H].
    destruct (Py.int16 (Py.slice 1 3 (String c t))) as [sig | e];
      [| reflexivity].
    cbn [Py.bind returns].
    destruct (Py.truthy (Py.slice_from 3 (String c t))); [| reflexivity].
    apply returns_bind; [apply returns_parse_stop_reply_details |].
    intros d. returns_if.
Qed.

(** Every response that is not a stop reply is dissected without an
    exception. *)
Lemma returns_response_but_stop_reply (self : dissector.Dissector)
  (data : string) :
  first_in "ST" data = false ->
  returns (dissector._dissect_response self data) = true.
Proof.
  intros H. unfold dissector._dissect_response.
  destruct (negb (Py.truthy data)); [reflexivity |].
  destruct (String.eqb data "OK"); [reflexivity |].
  destruct (String.eqb data ""); [reflexivity |].
  destruct (String.eqb data "l"); [reflexivity |].
  destruct (Py.startswith data "l" && (1 <? Py.len data));
    [apply returns_qxfer_response |].
  destruct (Py.startswith data "m" && (1 <? Py.len data)).
  { destruct (re.match_ dissector.re_thread_id (Py.slice_from 1 data));
      [apply returns_thread_id_response | apply returns_qxfer_response]. }
  destruct (Py.startswith data "E"); [apply returns_error |].
  cbv zeta.
  destruct data as [|c t].
  - cbn. reflexivity.
  - rewrite !first_char_eqb.
    unfold first_in in H. cbn [Py.char_in] in H.
    rewrite orb_false_r in H. rewrite H.
    destruct (Ascii.eqb c "W"); [apply returns_exit_reply |].
    destruct (Ascii.eqb c "X"); [apply returns_terminate_reply |].
    destruct (Ascii.eqb c "O"); [apply returns_console_output |].
    destruct (Ascii.eqb c "F"); [apply returns_file_io_response |].
    destruct (Ascii.eqb c "b"); [reflexivity |].
    destruct (Py.startswith (String c t) "QC"); [reflexivity |].
    destruct (Py.startswith (String c t) "vCont");
      [apply returns_vcont_response |].
    destruct (Py.all_chars _ (String c t)).
    { rewrite dissect_hex_data_label. reflexivity. }
    destruct (dissector._is_rle_hex_data (String c t)).
    { rewrite dissect_rle_hex_data_label. reflexivity. }
    destruct (dissector._is_key_value_data (String c t));
      [apply returns_key_value | reflexivity].
Qed.

(** X13: a frame dissected as a response raises only as a stop reply, a
    payload that begins with [S] or [T], whose characters 1 and 2
    [int(..., 16)] rejects; every other response, and every frame of another
    kind, returns. *)
Lemma response_raises_only_as_stop_reply (self : dissector.Dissector)
  (pkt : packet.Packet) :
  returns (snd (dissector.dissect self pkt true))
  = match packet.type pkt with
    | packet.PACKET =>
        if first_in "ST" (packet.data_str pkt)
        then returns (Py.int16 (Py.slice 1 3 (packet.data_str pkt)))
        else true
    | _ => true
    end.
Proof.
  unfold dissector.dissect.
  destruct (packet.type pkt); try reflexivity.
  - destruct (packet.data_str pkt) as [|c t] eqn:E; [reflexivity |].
    rewrite truthy_cons. cbn [negb snd].
    destruct (first_in "ST" (String c t)) eqn:F.
    + unfold dissector._dissect_response.
      rewrite truthy_cons, eqb_cons_empty. cbn [negb].
      unfold first_in in F. cbn [Py.char_in] in F. rewrite orb_false_r in F.
      assert (N : forall x p, Ascii.eqb c x = false ->
                              Py.startswith (String c t) (String x p) = false
                              /\ String.eqb (String c t) (String x p) = false).
      { intros x p Nx. apply Ascii.eqb_neq in Nx.
        split; [now apply prefix_other | now apply eqb_other]. }
      assert (NO : Ascii.eqb c "O" = false /\ Ascii.eqb c "l" = false
                   /\ Ascii.eqb c "m" = false /\ Ascii.eqb c "E" = false).
      { apply orb_true_iff in F as [F | F]; apply Ascii.eqb_eq in F; subst c;
          repeat split. }
      destruct NO as (NO & Nl & Nm & NE).
      rewrite (proj2 (N _ "K" NO)), (proj2 (N _ "" Nl)),
        (proj1 (N _ "" Nl)), (proj1 (N _ "" Nm)), (proj1 (N _ "" NE)).
      cbn [andb]. cbv zeta. rewrite !first_char_eqb, F.
      apply returns_stop_reply. unfold first_in. cbn [Py.char_in].
      now rewrite orb_false_r.
    + now apply returns_response_but_stop_reply.
  - cbn [snd]. unfold dissector._dissect_notification. returns_if.
Qed.

(** Why the payloads that begin with [E], [F] or [b] are left out: forty
    hexadecimal digits led by one of these go to the handlers of errors, of
    file results and of binary data, whatever the memorized command. *)
Lemma hex_blobs_with_a_leader (self : dissector.Dissector) :
  snd (dissector.dissect self
         (packet_frame (bytes_of "E000000000000000000000000000000000000000") 0 [] true) true)
  = Py.Return (Py.lit "Error 0")
  /\ snd (dissector.dissect self
            (packet_frame (bytes_of "F000000000000000000000000000000000000000") 0 [] true) true)
     = Py.Return (Py.lit "File result: 0")
  /\ snd (dissector.dissect self
            (packet_frame (bytes_of "b000000000000000000000000000000000000000") 0 [] true) true)
     = Py.Return (Py.lit "Binary data: 39 bytes").
Proof. repeat split. Qed.

Lemma hexdigit_not_star (c : ascii) :
  is_hexdigit c = true -> Ascii.eqb c "*" = false.
Proof. each_char c. Qed.

Lemma length_copies (n : nat) (c : ascii) :
  String.length (copies n (Some c)) = n.
Proof. induction n as [|n IH]; simpl; [reflexivity | now rewrite IH]. Qed.

Lemma length_append (a b : string) :
  String.length (a ++ b)%string = (String.length a + String.length b)%nat.
Proof. induction a as [|c a IH]; simpl; [reflexivity | now rewrite IH]. Qed.

Lemma rle_decoded_len_plain (c c1 : ascii) (t1 : string) (acc : Z) :
  Ascii.eqb c1 "*" = false -> Ascii.eqb c "*" = false ->
  dissector.rle_decoded_len (String c (String c1 t1)) acc
  = dissector.rle_decoded_len (String c1 t1) (acc + 1).
Proof. intros E1 Nc. simpl. rewrite E1, Nc. reflexivity. Qed.

Lemma rle_decoded_len_runs_bounded (k : nat) :
  forall (payload : string) (prev : option ascii) (acc : Z),
    (String.length payload <= k)%nat ->
    well_formed_rle payload = true ->
    dissector.rle_decoded_len payload acc
    = acc + Py.len (spec_rle_expand prev payload) - runs payload.
Proof.
  induction k as [|k IH]; intros payload prev acc Hlen WF.
  - destruct payload; [| simpl in Hlen; lia].
    simpl. unfold Py.len. simpl. lia.
  - destruct payload as [|c t]; [simpl; unfold Py.len; simpl; lia |].
    cbn [well_formed_rle] in WF. apply andb_true_iff in WF as [Hc WF].
    pose proof (hexdigit_not_star c Hc) as Nc.
    cbn [spec_rle_expand]. rewrite Nc.
    simpl in Hlen.
    destruct t as [|c1 t1].
    + cbn [dissector.rle_decoded_len]. rewrite Nc.
      unfold Py.len. simpl. lia.
    + destruct (Ascii.eqb c1 "*") eqn:E1.
      * destruct t1 as [|n t2]; [discriminate WF |].
        apply andb_true_iff in WF as [Hn WF].
        cbn [dissector.rle_decoded_len runs spec_rle_expand].
        rewrite E1.
        simpl in Hlen.
        rewrite (IH t2 (Some c) _ ltac:(lia) WF).
        unfold printable in Hn. apply andb_true_iff in Hn as [Hn _].
        apply Z.leb_le in Hn.
        change (Py.len (String c ?s)) with (Z.of_nat (S (String.length s))).
        unfold Py.len.
        rewrite length_append, length_copies.
        rewrite Nat2Z.inj_succ, Nat2Z.inj_add, Z2Nat.id by lia. lia.
      * assert (R : runs (String c (String c1 t1)) = runs (String c1 t1)).
        { cbn [runs]. destruct t1; [reflexivity | now rewrite E1]. }
        rewrite R.
        rewrite (rle_decoded_len_plain c c1 t1 acc E1 Nc).
        rewrite (IH (String c1 t1) (Some c) _ ltac:(simpl in *; lia) WF).
        unfold Py.len. cbn [String.length]. lia.
Qed.

(** X16: on every well-formed RLE payload the length that
    [_dissect_rle_hex_data] counts is the length of the expansion less one
    for each run. *)
Lemma rle_decoded_len_runs (payload : string) :
  well_formed_rle payload = true ->
  dissector.rle_decoded_len payload 0
  = Py.len (spec_rle_expand None payload) - runs payload.
Proof.
  intros WF.
  now rewrite (rle_decoded_len_runs_bounded (String.length payload) payload
                 None 0 (le_n _) WF).
Qed.

Lemma rle_decoded_len_runs_witness :
  dissector.rle_decoded_len "12* 0*!" 0
  = Py.len (spec_rle_expand None "12* 0*!") - runs "12* 0*!".
Proof. apply (rle_decoded_len_runs "12* 0*!"). reflexivity. Defined.

Lemma well_formed_rle_shape_bounded (k : nat) :
  forall payload : string,
    (String.length payload <= k)%nat ->
    well_formed_rle payload = true ->
    dissector.rle_shape payload = true.
Proof.
  induction k as [|k IH]; intros payload Hlen WF.
  - destruct payload; [reflexivity | simpl in Hlen; lia].
  - destruct payload as [|c t]; [reflexivity |].
    cbn [well_formed_rle] in WF. apply andb_true_iff in WF as [Hc WF].
    unfold is_hexdigit in Hc.
    cbn [dissector.rle_shape]. rewrite Hc.
    simpl in Hlen.
    destruct t as [|c1 t1]; [reflexivity |].
    destruct (Ascii.eqb c1 "*") eqn:E1.
    + destruct t1 as [|n t2]; [discriminate WF |].
      apply andb_true_iff in WF as [Hn WF].
      cbn [dissector.rle_shape].
      destruct (Py.char_in c1 dissector.HEXDIGITS) eqn:H1.
      { apply hexdigit_not_star in H1. congruence. }
      rewrite E1. cbn [Py.truthy String.eqb negb andb].
      unfold printable in Hn. rewrite Hn.
      apply IH; [simpl in Hlen; lia | exact WF].
    + apply IH; [lia | exact WF].
Qed.

(** A well-formed RLE payload with a run is taken for RLE data. *)
Lemma well_formed_rle_is_rle (payload : string) :
  well_formed_rle payload = true ->
  Py.char_in "*" payload = true ->
  dissector._is_rle_hex_data payload = true.
Proof.
  intros WF Star. unfold dissector._is_rle_hex_data. rewrite Star.
  cbn [negb].
  exact (well_formed_rle_shape_bounded _ payload (le_n _) WF).
Qed.

(** C3 (the code at the failing input): the payload made of a zero, a star
    and a blank has the RLE shape and expands to four zeros, two bytes; the
    dissector, which counts [ord(c) - 29] characters for the run and none
    for the character that heads it, reports one byte. *)
Theorem rle_count_drops_run_head :
  well_formed_rle "0* " = true
  /\ dissector._is_rle_hex_data "0* " = true
  /\ spec_rle_expand None "0* " = "0000"
  /\ dissector.dissect dissector.__init__
       (packet_frame (bytes_of "0* ") 0 [] true) true
     = (dissector.__init__, Py.Return (Py.lit "Data: 1 bytes")).
Proof. repeat split. Qed.

(** * The escapes of binary data *)

Lemma escape_byte_eqb (b : byte) :
  (Py.int_of_byte b =? constants.ESCAPE) = Byte.eqb b ESCAPE_BYTE.
Proof. destruct b; reflexivity. Qed.

Lemma xor_escape_twice (b : byte) : xor_escape (xor_escape b) = b.
Proof. destruct b; reflexivity. Qed.

Lemma unescape_cons (b : byte) (rest : list byte) :
  packet.unescape (b :: rest)
  = if Py.int_of_byte b =? constants.ESCAPE then
      match rest with
      | b1 :: rest1 => xor_escape b1 :: packet.unescape rest1
      | [] => [b]
      end
    else b :: packet.unescape rest.
Proof. reflexivity. Qed.

(** X8: [unescape] undoes every escaping: whichever bytes are written with
    the escape prefix, as long as the prefix itself is, the data comes back
    as it was. *)
Theorem unescape_escape (must : byte -> bool) (data : list byte) :
  packet.unescape (escape must data) = data.
Proof.
  unfold escape. induction data as [|b data IH]; [reflexivity |].
  cbn [flat_map].
  destruct (must b || Byte.eqb b ESCAPE_BYTE) eqn:E.
  - cbn [app packet.unescape].
    change (Py.int_of_byte ESCAPE_BYTE =? constants.ESCAPE) with true.
    cbv iota. fold (xor_escape (xor_escape b)). now rewrite xor_escape_twice, IH.
  - apply orb_false_elim in E as [_ E].
    cbn [app packet.unescape]. now rewrite escape_byte_eqb, E, IH.
Qed.

Lemma unescape_length_bounded (n : nat) (data : list byte) :
  (List.length data <= n)%nat ->
  (List.length (packet.unescape data) <= List.length data
   <= 2 * List.length (packet.unescape data))%nat.
Proof.
  revert data; induction n as [|n IH]; intros data L.
  - destruct data; [cbn; lia | cbn in L; lia].
  - destruct data as [|b [|b1 rest]].
    + cbn; lia.
    + cbn [packet.unescape].
      destruct (Py.int_of_byte b =? constants.ESCAPE); cbn; lia.
    + rewrite unescape_cons.
      destruct (Py.int_of_byte b =? constants.ESCAPE).
      * cbn [List.length] in *. specialize (IH rest ltac:(lia)). lia.
      * cbn [List.length] in *. specialize (IH (b1 :: rest) ltac:(cbn; lia)).
        cbn [List.length] in IH. lia.
Qed.

(** X9: what [unescape] gives is no longer than the data, and at least half
    as long. *)
Theorem unescape_length (data : list byte) :
  (List.length (packet.unescape data) <= List.length data
   <= 2 * List.length (packet.unescape data))%nat.
Proof. now apply (unescape_length_bounded (List.length data)). Qed.

Lemma decode_latin1_cons (b : byte) (rest : list byte) :
  Py.decode_latin1 (b :: rest)
  = String (ascii_of_byte b) (Py.decode_latin1 rest).
Proof. reflexivity. Qed.

Lemma escape_ascii_eqb (b : byte) :
  Ascii.eqb (ascii_of_byte b) "}" = (Py.int_of_byte b =? constants.ESCAPE).
Proof. destruct b; reflexivity. Qed.

Lemma count_binary_cons (c : ascii) (t : string) (byte_count : Z) :
  dissector.count_binary (String c t) byte_count
  = if Ascii.eqb c "}" then
      match t with
      | String _ t' => dissector.count_binary t' (byte_count + 1)
      | EmptyString => byte_count + 1
      end
    else dissector.count_binary t (byte_count + 1).
Proof. destruct t; reflexivity. Qed.

(** The dissector counts the bytes of a binary response as [unescape]
    makes them. *)
Lemma count_binary_unescape_bounded (n : nat) (data : list byte) (acc : Z) :
  (List.length data <= n)%nat ->
  dissector.count_binary (Py.decode_latin1 data) acc
  = acc + Z.of_nat (List.length (packet.unescape data)).
Proof.
  revert data acc; induction n as [|n IH]; intros data acc L.
  - destruct data; [cbn; lia | cbn in L; lia].
  - destruct data as [|b [|b1 rest]].
    + cbn; lia.
    + rewrite unescape_cons, decode_latin1_cons, count_binary_cons.
      rewrite escape_ascii_eqb.
      destruct (Py.int_of_byte b =? constants.ESCAPE); cbn; lia.
    + rewrite unescape_cons, decode_latin1_cons, count_binary_cons.
      rewrite escape_ascii_eqb.
      destruct (Py.int_of_byte b =? constants.ESCAPE).
      * rewrite decode_latin1_cons.
        cbn [List.length] in *. rewrite IH by lia. lia.
      * cbn [List.length] in L. rewrite IH by (cbn [List.length]; lia).
        cbn [List.length]. lia.
Qed.

(** X10: a response that begins with [b] is told as binary data, with the
    number of bytes that [unescape] makes of what follows the [b]; the
    dissector is left as it was. *)
Theorem binary_response_counts_unescaped (self : dissector.Dissector)
  (binary : list byte) cs raw v :
  dissector.dissect self (packet_frame ("b"%byte :: binary) cs raw v) true
  = (self,
     Py.Return (Py.lit "Binary data: "
                ++ Py.str_int (Z.of_nat (List.length (packet.unescape binary)))
                ++ Py.lit " bytes")).
Proof.
  unfold dissector.dissect, packet_frame, packet.data_str.
  cbn [packet.type packet.data].
  rewrite decode_latin1_cons.
  change (ascii_of_byte "b") with "b"%char.
  rewrite truthy_cons. cbn [negb].
  unfold dissector._dissect_response. rewrite truthy_cons. cbn [negb].
  cbn -[dissector.count_binary Py.str_int Py.lit Py.decode_latin1].
  unfold dissector._dissect_binary_memory_response.
  cbn [Py.slice_from].
  now rewrite (count_binary_unescape_bounded (List.length binary)).
Qed.

(** * Numbers in hexadecimal *)





(** ** The matching engine *)









(** ** A command and its numbers *)








(** ** Where a command can raise *)





































Lemma startswith_empty (s : string) : Py.startswith s EmptyString = true.
Proof. now destruct s. Qed.






Lemma first_prefix_In {V : Type} (handlers : list (string * V))
  (data : string) (h : V) :
  dissector.first_prefix handlers data = Some h ->
  exists key, In (key, h) handlers.
Proof.
  induction handlers as [|[k v] l IH]; [discriminate |].
  cbn [dissector.first_prefix].
  destruct (Py.startswith data k).
  - intros [= ->]. exists k. now left.
  - intros H. destruct (IH H) as [key I']. exists key. now right.
Qed.

Lemma get_In {V : Type} (d : list (ascii * V)) (k : ascii) (h : V) :
  Py.get Ascii.eqb d k = Some h -> exists key, In (key, h) d.
Proof.
  induction d as [|[k' v] l IH]; [discriminate |].
  cbn [Py.get]. destruct (Ascii.eqb k k').
  - intros [= ->]. exists k'. now left.
  - intros H. destruct (IH H) as [key I']. exists key. now right.
Qed.





(** ** What is returned is never empty *)

Lemma says_bind {A : Type} (c : Py.result A) (k : A -> Py.result Py.text) :
  (forall a, says_something (k a) = true) ->
  says_something (Py.bind c k) = true.
Proof. intros H. destruct c as [a | e]; [apply H | reflexivity]. Qed.

Lemma says_except (body handler : Py.result Py.text) :
  says_something body = true -> says_something handler = true ->
  says_something (Py.except_ValueError body handler) = true.
Proof.
  intros Hb Hh. destruct body as [t | e]; [exact Hb |].
  cbn. now destruct e.
Qed.

(** The branches of a handler, each one ending in the [return] of a text
    that begins with a literal. *)
Ltac says :=
  repeat match goal with
         | |- says_something (if ?b then _ else _) = true => destruct b
         | |- says_something (match ?o with Some _ => _ | None => _ end)
              = true => destruct o
         | |- says_something (match ?l with [] => _ | _ :: _ => _ end)
              = true => destruct l
         | |- says_something (Py.bind _ _) = true =>
             apply says_bind; intros
         | |- says_something (Py.except_ValueError _ _) = true =>
             apply says_except
         | |- says_something (Py.Return _) = true => reflexivity
         end.

Lemma says_command_handlers :
  Forall (fun kv => forall data, says_something (snd kv data) = true)
         dissector._command_handlers.
Proof.
  unfold dissector._command_handlers.
  repeat constructor; cbn [snd]; intros data;
    match goal with
    | |- says_something (?f data) = true => unfold f; says
    end.
Qed.

Lemma says_vfile (data : string) :
  says_something (dissector._dissect_vfile data) = true.
Proof. unfold dissector._dissect_vfile. says. Qed.

Lemma says_v_handlers :
  Forall (fun kv => forall data, says_something (snd kv data) = true)
         dissector._v_handlers.
Proof.
  unfold dissector._v_handlers.
  repeat constructor; cbn [snd]; intros data;
    match goal with
    | |- says_something (?f data) = true => unfold f; says
    end.
Qed.

Lemma says_qrcmd (data : string) :
  says_something (dissector._dissect_qrcmd data) = true.
Proof.
  unfold dissector._dissect_qrcmd. destruct (Py.bind _ _); reflexivity.
Qed.

Lemma says_q_handlers :
  Forall (fun kv => forall data, says_something (snd kv data) = true)
         dissector._q_handlers.
Proof.
  unfold dissector._q_handlers.
  repeat constructor; cbn [snd]; intros data;
    first [ apply says_qrcmd
          | match goal with
            | |- says_something (?f data) = true => unfold f; says
            end ].
Qed.

Lemma says_Q_command (data : string) :
  says_something (dissector._dissect_Q_command data) = true.
Proof. unfold dissector._dissect_Q_command. says. Qed.

Lemma says_command (data : string) :
  says_something (dissector._dissect_command data) = true.
Proof.
  unfold dissector._dissect_command.
  destruct data as [|cmd t]; [reflexivity |].
  destruct (Py.get Ascii.eqb dissector._command_handlers cmd) as [h|] eqn:G.
  { destruct (get_In _ _ _ G) as [key I'].
    pose proof says_command_handlers as F. rewrite Forall_forall in F.
    exact (F _ I' (String cmd t)). }
  destruct (Ascii.eqb cmd "v").
  { unfold dissector._dissect_v_command.
    destruct (dissector.first_prefix _ _) as [h|] eqn:E; [| reflexivity].
    destruct (first_prefix_In _ _ _ E) as [key I'].
    pose proof says_v_handlers as F. rewrite Forall_forall in F.
    exact (F _ I' (String cmd t)). }
  destruct (Ascii.eqb cmd "q").
  { unfold dissector._dissect_q_command.
    destruct (dissector.first_prefix _ _) as [h|] eqn:E; [| says].
    destruct (first_prefix_In _ _ _ E) as [key I'].
    pose proof says_q_handlers as F. rewrite Forall_forall in F.
    exact (F _ I' (String cmd t)). }
  destruct (Ascii.eqb cmd "Q"); [apply says_Q_command | reflexivity].
Qed.

Lemma says_hex_data (self : dissector.Dissector) (data : string) :
  says_something (dissector._dissect_hex_data self data) = true.
Proof.
  unfold dissector._dissect_hex_data.
  destruct (dissector._last_command self) as [last|];
    repeat match goal with
           | |- context [if ?b then _ else _] => destruct b
           end; reflexivity.
Qed.

Lemma says_rle_hex_data (self : dissector.Dissector) (data : string) :
  says_something (dissector._dissect_rle_hex_data self data) = true.
Proof. unfold dissector._dissect_rle_hex_data. says. Qed.

Lemma says_stop_reply (data : string) :
  says_something (dissector._dissect_stop_reply data) = true.
Proof. unfold dissector._dissect_stop_reply. says. Qed.

Lemma says_qxfer_response (data : string) (final : bool) :
  says_something (dissector._dissect_qxfer_response data final) = true.
Proof. unfold dissector._dissect_qxfer_response. says. Qed.

Lemma says_file_io_response (data : string) :
  says_something (dissector._dissect_file_io_response data) = true.
Proof. unfold dissector._dissect_file_io_response. says. Qed.

Lemma says_response (self : dissector.Dissector) (data : string) :
  says_something (dissector._dissect_response self data) = true.
Proof.
  unfold dissector._dissect_response.
  repeat match goal with
         | |- says_something (if ?b then _ else _) = true => destruct b
         | |- says_something (match ?o with Some _ => _ | None => _ end)
              = true => destruct o
         | |- says_something (Py.Return _) = true => reflexivity
         end;
    first [ apply says_hex_data | apply says_rle_hex_data
          | apply says_stop_reply | apply says_qxfer_response
          | apply says_file_io_response
          | match goal with
            | |- says_something (?f _) = true => unfold f; says
            end ].
Qed.

(** X17: whatever the frame, the dissector and the direction, what
    [dissect] returns, when it returns, is never the empty string. *)
Theorem dissect_is_never_silent (self : dissector.Dissector)
  (pkt : packet.Packet) (is_response : bool) (t : Py.text) :
  snd (dissector.dissect self pkt is_response) = Py.Return t -> t <> [].
Proof.
  assert (S : says_something (snd (dissector.dissect self pkt is_response))
              = true).
  { unfold dissector.dissect.
    destruct (packet.type pkt); try reflexivity.
    - destruct (negb _); [reflexivity |].
      destruct is_response; [apply says_response | apply says_command].
    - cbn [snd]. unfold dissector._dissect_notification. says. }
  intros E. rewrite E in S. now destruct t.
Qed.

Lemma dissect_is_never_silent_witness :
  Py.lit "Read all registers" <> [].
Proof.
  apply (dissect_is_never_silent dissector.__init__
           (packet_frame (bytes_of "g") 103 (bytes_of "$g#67") true) false).
  reflexivity.
Defined.
